(** * Expense Tracker: storage layer (db.py) and page logic (app.py)

    A shallow embedding of the two source files and the properties the
    specification states about them.

    Modelling choices, fixed once for the whole development:
    - an SQLite TEXT value is a [string], compared byte-wise (the BINARY
      collation) with [String.compare]; a nullable TEXT is [option string];
    - a pandas [Timestamp] of the [date] column is the proleptic Gregorian
      day number of Python's [date.toordinal] (every value of the column is a
      midnight, so day granularity loses nothing); [Timedelta(days=k)] is the
      integer [k]; the nanosecond range limit of [Timestamp] is not modelled;
    - an amount (SQLite REAL, a Python float) is an exact rational [Q]:
      no property below depends on rounding;
    - the clock ([CURRENT_TIMESTAMP], [datetime.today()]) and the random
      generator are explicit arguments;
    - every call in app.py uses the default database path, so the store
      is one database value threaded through the operations. *)

From Stdlib Require Import ZArith List Bool Lia String Ascii QArith.
From Stdlib Require Import Permutation Sorted.
Import ListNotations.

Local Open Scope Z_scope.

(* ================================================================== *)
(** ** Calendar arithmetic used by [date], [strftime] and [Timestamp] *)
(* ================================================================== *)

Module Calendar.

(** A Python [datetime.date]: plain fields, compared as the triple. *)
Record date := mkDate { year : Z; month : Z; day : Z }.

Definition is_leap (y : Z) : bool :=
  (y mod 4 =? 0) && (negb (y mod 100 =? 0) || (y mod 400 =? 0)).

Definition days_in_month (y m : Z) : Z :=
  if (m =? 2) && is_leap y then 29
  else match m with
       | 1 => 31 | 2 => 28 | 3 => 31 | 4 => 30 | 5 => 31 | 6 => 30
       | 7 => 31 | 8 => 31 | 9 => 30 | 10 => 31 | 11 => 30 | 12 => 31
       | _ => 0
       end.

Definition days_before_year (y : Z) : Z :=
  let p := y - 1 in p * 365 + p / 4 - p / 100 + p / 400.

Definition DAYS_BEFORE_MONTH (m : Z) : Z :=
  match m with
  | 1 => 0 | 2 => 31 | 3 => 59 | 4 => 90 | 5 => 120 | 6 => 151
  | 7 => 181 | 8 => 212 | 9 => 243 | 10 => 273 | 11 => 304 | 12 => 334
  | _ => 0
  end.

Definition DAYS_IN_MONTH (m : Z) : Z :=
  match m with
  | 1 => 31 | 2 => 28 | 3 => 31 | 4 => 30 | 5 => 31 | 6 => 30
  | 7 => 31 | 8 => 31 | 9 => 30 | 10 => 31 | 11 => 30 | 12 => 31
  | _ => 0
  end.

Definition days_before_month (y m : Z) : Z :=
  DAYS_BEFORE_MONTH m + (if (2 <? m) && is_leap y then 1 else 0).

(** MINYEAR = 1 and MAXYEAR = 9999 bound every [date] object. *)
Definition valid_date (d : date) : bool :=
  (1 <=? year d) && (year d <=? 9999) &&
  (1 <=? month d) && (month d <=? 12) &&
  (1 <=? day d) && (day d <=? days_in_month (year d) (month d)).

(** [date.toordinal()]: 0001-01-01 is day 1. *)
Definition ymd2ord (y m d : Z) : Z :=
  days_before_year y + days_before_month y m + d.

Definition toordinal (d : date) : Z := ymd2ord (year d) (month d) (day d).

Definition DI400Y : Z := 146097.
Definition DI100Y : Z := 36524.
Definition DI4Y : Z := 1461.

(** [date.fromordinal(n)], for [n >= 1]. *)
Definition ord2ymd (n : Z) : date :=
  let n0 := n - 1 in
  let n400 := n0 / DI400Y in
  let r400 := n0 mod DI400Y in
  let n100 := r400 / DI100Y in
  let r100 := r400 mod DI100Y in
  let n4 := r100 / DI4Y in
  let r4 := r100 mod DI4Y in
  let n1 := r4 / 365 in
  let r1 := r4 mod 365 in
  let y := n400 * 400 + 1 + n100 * 100 + n4 * 4 + n1 in
  if (n1 =? 4) || (n100 =? 4) then mkDate (y - 1) 12 31
  else
    let leapyear := (n1 =? 3) && (negb (n4 =? 24) || (n100 =? 3)) in
    let m := Z.shiftr (r1 + 50) 5 in
    let preceding := DAYS_BEFORE_MONTH m + (if (2 <? m) && leapyear then 1 else 0) in
    if r1 <? preceding then
      let m' := m - 1 in
      let preceding' :=
        preceding - (DAYS_IN_MONTH m' + (if (m' =? 2) && leapyear then 1 else 0)) in
      mkDate y m' (r1 - preceding' + 1)
    else mkDate y m (r1 - preceding + 1).

(** [date.max.toordinal()], the day number of 9999-12-31. *)
Definition max_ordinal : Z := 3652059.

(** [date.weekday()]: Monday is 0, Sunday is 6. *)
Definition weekday_of_ordinal (n : Z) : Z := (n + 6) mod 7.

(** Comparison of two [date] objects: the triples, lexicographically. *)
Definition date_compare (a b : date) : comparison :=
  match year a ?= year b with
  | Eq => match month a ?= month b with
          | Eq => day a ?= day b
          | c => c
          end
  | c => c
  end.

(** [strftime("%Y-%m-%d")]: [%Y] is the four-digit zero-padded year of
    the Python documentation, [%m] and [%d] are two digits. *)
Definition digit_char (k : Z) : ascii := ascii_of_N (48 + Z.to_N k).

Definition pad2 (n : Z) (rest : string) : string :=
  String (digit_char (n / 10 mod 10)) (String (digit_char (n mod 10)) rest).

Definition pad4 (n : Z) (rest : string) : string :=
  String (digit_char (n / 1000 mod 10)) (String (digit_char (n / 100 mod 10))
    (pad2 n rest)).

Definition strftime_ymd (d : date) : string :=
  pad4 (year d) (String "-" (pad2 (month d) (String "-" (pad2 (day d) EmptyString)))).

(** Reading the text back.  [digit_val] is the value of a decimal digit. *)
Definition digit_val (c : ascii) : option Z :=
  let n := Z.of_N (N_of_ascii c) in
  if (48 <=? n) && (n <=? 57) then Some (n - 48) else None.

Definition num2 (a b : ascii) : option Z :=
  match digit_val a, digit_val b with
  | Some x, Some y => Some (10 * x + y)
  | _, _ => None
  end.

Definition num4 (a b c d : ascii) : option Z :=
  match num2 a b, num2 c d with
  | Some x, Some y => Some (100 * x + y)
  | _, _ => None
  end.

Definition is_dash (c : ascii) : bool := Ascii.eqb c "-".

(** The reader of the canonical form: exactly ten characters,
    [YYYY-MM-DD], naming a date that exists. *)
Definition parse_iso (s : string) : option date :=
  match s with
  | String y1 (String y2 (String y3 (String y4 (String s1
     (String m1 (String m2 (String s2 (String d1 (String d2 EmptyString))))))))) =>
      if is_dash s1 && is_dash s2 then
        match num4 y1 y2 y3 y4, num2 m1 m2, num2 d1 d2 with
        | Some y, Some m, Some d =>
            if valid_date (mkDate y m d) then Some (mkDate y m d) else None
        | _, _, _ => None
        end
      else None
  | _ => None
  end.

Definition is_iso (s : string) : bool :=
  match parse_iso s with Some _ => true | None => false end.

End Calendar.


(* ================================================================== *)
(** ** Exceptions *)
(* ================================================================== *)

Inductive exn : Type :=
| OperationalError   (* sqlite3: no such table *)
| ParserError        (* pandas.to_datetime on a text it cannot read *)
| ValueError         (* tuple unpacking of a wrong length *)
| IndexError         (* tuple index out of range *)
| RegexOutsideModel. (* a search pattern with operators outside the modelled fragment *)

Inductive result (A : Type) : Type :=
| Ok (a : A)
| Raise (e : exn).
Arguments Ok {A} a.
Arguments Raise {A} e.

Definition bind {A B : Type} (r : result A) (k : A -> result B) : result B :=
  match r with
  | Ok a => k a
  | Raise e => Raise e
  end.

Fixpoint mapM {A B : Type} (f : A -> result B) (l : list A) : result (list B) :=
  match l with
  | [] => Ok []
  | x :: t => bind (f x) (fun y => bind (mapM f t) (fun ys => Ok (y :: ys)))
  end.

(* ================================================================== *)
(** ** db.py *)
(* ================================================================== *)

(** A row of the table [expenses]; [date] and [created_at] are TEXT. *)
Module Table.
Record row := mkRow {
  id : Z;
  amount : Q;
  category : string;
  date : string;
  notes : option string;
  created_at : string
}.
End Table.

(** A row of the DataFrame [fetch_expenses] returns: [date] is a Timestamp. *)
Module Frame.
Record row := mkRow {
  id : Z;
  amount : Q;
  category : string;
  date : Z;
  notes : option string;
  created_at : string
}.
End Frame.

Module Db.

(** The table in rowid order, and the AUTOINCREMENT counter kept in
    [sqlite_sequence]: the largest id handed out so far. *)
Record table := mkTable { rows : list Table.row; seq : Z }.

(** The database file: the table [expenses] exists or not. *)
Definition database := option table.

(** [CREATE TABLE IF NOT EXISTS expenses (...)] *)
Definition init_db (db : database) : database :=
  match db with
  | None => Some (mkTable [] 0)
  | Some t => Some t
  end.

(** The [date_str] argument: text, or a [date]/[datetime] object (the
    format [%Y-%m-%d] reads only the calendar fields of a [datetime]). *)
Inductive date_arg :=
| DateStr (s : string)
| DateObj (d : Calendar.date).

(** [add_expense(amount, category, date_str, notes)]; [now] is the value
    of [CURRENT_TIMESTAMP] at the insert. *)
Definition add_expense (now : string) (amount : Q) (category : string)
    (date_str : date_arg) (notes : option string) (db : database)
    : result database :=
  let date_str :=
    match date_str with
    | DateObj d => Calendar.strftime_ymd d
    | DateStr s => s
    end in
  match db with
  | None => Raise OperationalError
  | Some t =>
      let rid := seq t + 1 in
      Ok (Some (mkTable
                  (rows t ++ [Table.mkRow rid amount category date_str notes now])
                  rid))
  end.

(** [ORDER BY date DESC, created_at DESC] on the two TEXT columns:
    [Lt] when [a] sorts before [b]. *)
Definition order_by (a b : Table.row) : comparison :=
  match String.compare (Table.date b) (Table.date a) with
  | Eq => String.compare (Table.created_at b) (Table.created_at a)
  | c => c
  end.

(** The sorter keeps rows of equal keys in scan (rowid) order.  SQL leaves
    that order open; no theorem below depends on it except where said. *)
Fixpoint sort_insert (r : Table.row) (l : list Table.row) : list Table.row :=
  match l with
  | [] => [r]
  | x :: t =>
      match order_by r x with
      | Gt => x :: sort_insert r t
      | _ => r :: l
      end
  end.

Definition select_all_ordered (t : table) : list Table.row :=
  fold_right sort_insert [] (rows t).

(** [pd.to_datetime] on one text of the column.  The column is declared to
    hold ['YYYY-MM-DD']; that form is read, any other text raises here
    (pandas reads some further spellings, which the table never holds
    when its rows come from the pages of app.py). *)
Definition to_datetime (s : string) : result Z :=
  match Calendar.parse_iso s with
  | Some d => Ok (Calendar.toordinal d)
  | None => Raise ParserError
  end.

Definition to_frame_row (r : Table.row) : result Frame.row :=
  bind (to_datetime (Table.date r)) (fun ts =>
  Ok (Frame.mkRow (Table.id r) (Table.amount r) (Table.category r) ts
                  (Table.notes r) (Table.created_at r))).

(** [fetch_expenses()] *)
Definition fetch_expenses (db : database) : result (list Frame.row) :=
  match db with
  | None => Raise OperationalError
  | Some t =>
      let df := select_all_ordered t in
      match df with
      | [] => Ok []
      | _ => mapM to_frame_row df
      end
  end.

Definition categories : list string :=
  ["Housing"; "Food"; "Transportation"; "Utilities"; "Entertainment";
   "Healthcare"; "Other"]%string.

(** One turn of the loop of [add_demo_data]: the outcomes of
    [random.randint(0, 365)], [round(random.uniform(5, 800), 2)] and
    [random.choice(categories)], and the clock at the insert. *)
Record draw := mkDraw {
  days_back : Z;
  demo_amount : Q;
  demo_category : string;
  demo_now : string
}.

Fixpoint demo_loop (today : Z) (draws : list draw) (db : database)
    : result database :=
  match draws with
  | [] => Ok db
  | w :: rest =>
      let d := Calendar.ord2ymd (today - days_back w) in
      bind (add_expense (demo_now w) (demo_amount w) (demo_category w)
              (DateStr (Calendar.strftime_ymd d)) (Some "Demo expense"%string) db)
           (demo_loop today rest)
  end.

(** [add_demo_data()]: [today] is the day number of [datetime.today()];
    [draws] lists the random outcomes of the 60 turns of the loop, in
    order (the loop runs [range(60)]: only the first 60 are used). *)
Definition add_demo_data (today : Z) (draws : list draw) (db : database)
    : result database :=
  demo_loop today (firstn 60 draws) (init_db db).

(** The four functions the module offers, as one interface. *)
Inductive operation :=
| op_init_db
| op_add_expense (now : string) (amount : Q) (category : string)
    (date_str : date_arg) (notes : option string)
| op_fetch_expenses
| op_add_demo_data (today : Z) (draws : list draw).

(** The database an operation leaves behind; a call that raised has
    written nothing. *)
Definition run (o : operation) (db : database) : database :=
  match o with
  | op_init_db => init_db db
  | op_add_expense now amount category date_str notes =>
      match add_expense now amount category date_str notes db with
      | Ok db' => db'
      | Raise _ => db
      end
  | op_fetch_expenses => db
  | op_add_demo_data today draws =>
      match add_demo_data today draws db with
      | Ok db' => db'
      | Raise _ => db
      end
  end.

Definition rows_of (db : database) : list Table.row :=
  match db with
  | None => []
  | Some t => rows t
  end.

(** The contract of the docstring of [add_expense]: [date_str] is
    ['YYYY-MM-DD'] or a [date]/[datetime] object. *)
Definition date_arg_ok (a : date_arg) : Prop :=
  match a with
  | DateObj d => Calendar.valid_date d = true
  | DateStr s => Calendar.is_iso s = true
  end.

(** The databases built by [init_db] on a new file and calls of
    [add_expense] within that contract. *)
Inductive populated : database -> Prop :=
| populated_init : populated (init_db None)
| populated_add : forall db now amount category date_str notes db',
    populated db ->
    date_arg_ok date_str ->
    add_expense now amount category date_str notes db = Ok db' ->
    populated db'.

End Db.

(* ================================================================== *)
(** ** app.py *)
(* ================================================================== *)

Module App.

(** *** DataFrame operations the pages use *)

(** [df['amount'].sum()] *)
Definition sum_amount (df : list Frame.row) : Q :=
  fold_left Qplus (map Frame.amount df) 0%Q.

(** [df['date'].max()] and [df['date'].min()] of a frame with first row
    [r0] and remaining rows [rest]. *)
Definition date_max (r0 : Frame.row) (rest : list Frame.row) : Z :=
  fold_left Z.max (map Frame.date rest) (Frame.date r0).

Definition date_min (r0 : Frame.row) (rest : list Frame.row) : Z :=
  fold_left Z.min (map Frame.date rest) (Frame.date r0).

(** [Series.astype(str)] on the object column [notes]: a missing value
    becomes the text of Python's [str(None)]. *)
Definition astype_str (o : option string) : string :=
  match o with
  | Some s => s
  | None => "None"%string
  end.

(** **** [Series.str.contains(pat, case=False, na=False)]

    The default [regex=True] makes [pat] a regular expression, searched
    with [re.IGNORECASE].  The fragment modelled: a pattern of ordinary
    characters and [.]; any other operator character leaves the model.
    Case is folded on ASCII letters. *)
Inductive atom :=
| Lit (c : ascii)
| AnyChar.

Definition is_operator (c : ascii) : bool :=
  existsb (Ascii.eqb c)
    ["\"; "^"; "$"; "*"; "+"; "?"; "{"; "}"; "["; "]"; "|"; "("; ")"]%char.

Fixpoint compile (pat : string) : result (list atom) :=
  match pat with
  | EmptyString => Ok []
  | String c rest =>
      if Ascii.eqb c "." then bind (compile rest) (fun p => Ok (AnyChar :: p))
      else if is_operator c then Raise RegexOutsideModel
      else bind (compile rest) (fun p => Ok (Lit c :: p))
  end.

Definition lower (c : ascii) : ascii :=
  let n := N_of_ascii c in
  if ((65 <=? n) && (n <=? 90))%N then ascii_of_N (n + 32) else c.

Definition atom_matches (a : atom) (c : ascii) : bool :=
  match a with
  | Lit x => Ascii.eqb (lower x) (lower c)
  | AnyChar => negb (Ascii.eqb c "010")
  end.

Fixpoint match_here (p : list atom) (s : string) : bool :=
  match p, s with
  | [], _ => true
  | _ :: _, EmptyString => false
  | a :: p', String c s' => atom_matches a c && match_here p' s'
  end.

Fixpoint re_search (p : list atom) (s : string) : bool :=
  match_here p s ||
  match s with
  | EmptyString => false
  | String _ s' => re_search p s'
  end.

Definition str_contains (pat : string) (col : list string) : result (list bool) :=
  bind (compile pat) (fun p => Ok (map (re_search p) col)).

(** [df[mask]] *)
Fixpoint select {A : Type} (df : list A) (mask : list bool) : list A :=
  match df, mask with
  | r :: df', b :: mask' => if b then r :: select df' mask' else select df' mask'
  | _, _ => []
  end.

(** *** View & Export: the filter block (lines 63-69) *)

Definition date_range_filter (start_dt end_dt : Calendar.date)
    (filtered : list Frame.row) : list Frame.row :=
  filter (fun r => (Calendar.toordinal start_dt <=? Frame.date r) &&
                   (Frame.date r <=? Calendar.toordinal end_dt)) filtered.

Definition isin (selected_cats : list string) (c : string) : bool :=
  existsb (String.eqb c) selected_cats.

Definition category_filter (selected_cats : list string)
    (filtered : list Frame.row) : list Frame.row :=
  match selected_cats with
  | [] => filtered
  | _ => filter (fun r => isin selected_cats (Frame.category r)) filtered
  end.

Definition text_search_filter (text_search : string)
    (filtered : list Frame.row) : result (list Frame.row) :=
  match text_search with
  | EmptyString => Ok filtered
  | _ =>
      bind (str_contains text_search (map (fun r => astype_str (Frame.notes r)) filtered))
           (fun mask => Ok (select filtered mask))
  end.

(** [date_range] is the tuple the date widget returns; the assignment
    [start_dt, end_dt = date_range] needs exactly two components. *)
Definition unpack2 (date_range : list Calendar.date)
    : result (Calendar.date * Calendar.date) :=
  match date_range with
  | [a; b] => Ok (a, b)
  | _ => Raise ValueError
  end.

Definition view_filtered (df : list Frame.row) (date_range : list Calendar.date)
    (selected_cats : list string) (text_search : string)
    : result (list Frame.row) :=
  bind (unpack2 date_range) (fun '(start_dt, end_dt) =>
  text_search_filter text_search
    (category_filter selected_cats (date_range_filter start_dt end_dt df))).

(** *** Dashboard *)

Inductive timeframe :=
| Last_30_days
| Last_90_days
| Year_to_date
| All_time
| Custom_range.

Definition tuple_item (dr : list Calendar.date) (i : nat) : result Calendar.date :=
  match nth_error dr i with
  | Some d => Ok d
  | None => Raise IndexError
  end.

(** Lines 86-99: the pair [(start, end)], for the frame [r0 :: rest]. *)
Definition resolve_timeframe (tf : timeframe) (dr : list Calendar.date)
    (r0 : Frame.row) (rest : list Frame.row) : result (Z * Z) :=
  match tf with
  | Custom_range =>
      bind (tuple_item dr 0) (fun d0 =>
      bind (tuple_item dr 1) (fun d1 =>
      Ok (Calendar.toordinal d0, Calendar.toordinal d1)))
  | _ =>
      let end_ := date_max r0 rest in
      let start :=
        match tf with
        | Last_30_days => end_ - 30
        | Last_90_days => end_ - 90
        | Year_to_date =>
            Calendar.ymd2ord (Calendar.year (Calendar.ord2ymd end_)) 1 1
        | _ => date_min r0 rest
        end in
      Ok (start, end_)
  end.

Definition between (lo hi : Z) (df : list Frame.row) : list Frame.row :=
  filter (fun r => (lo <=? Frame.date r) && (Frame.date r <=? hi)) df.

(** **** [resample('M')]: bins are calendar months, labelled by their
    last day; every month from the first to the last observed one is
    emitted, and [sum] of an empty bin is 0. *)
Definition month_index (ts : Z) : Z :=
  let d := Calendar.ord2ymd ts in 12 * Calendar.year d + (Calendar.month d - 1).

Definition month_end (k : Z) : Z :=
  let y := k / 12 in
  let m := k mod 12 + 1 in
  Calendar.ymd2ord y m (Calendar.days_in_month y m).

Definition zrange (lo : Z) (n : nat) : list Z :=
  map (fun i => lo + Z.of_nat i) (seq 0 n).

Definition resample_M (df : list Frame.row) : list (Z * Q) :=
  match df with
  | [] => []
  | r0 :: rest =>
      let lo := month_index (date_min r0 rest) in
      let hi := month_index (date_max r0 rest) in
      map (fun k => (month_end k,
                     sum_amount (filter (fun r => month_index (Frame.date r) =? k) df)))
          (zrange lo (Z.to_nat (hi - lo + 1)))
  end.

(** **** [resample('W-MON')]: weekly bins anchored on Monday.  For this
    frequency pandas closes and labels a bin on its right edge, so a
    timestamp belongs to the bin of the first Monday on or after it. *)
Definition week_label (ts : Z) : Z :=
  ts + (7 - Calendar.weekday_of_ordinal ts) mod 7.

Definition resample_W_MON (df : list Frame.row) : list (Z * Q) :=
  match df with
  | [] => []
  | r0 :: rest =>
      let lo := week_label (date_min r0 rest) in
      let hi := week_label (date_max r0 rest) in
      map (fun i => (lo + 7 * i,
                     sum_amount (filter (fun r => week_label (Frame.date r) =? lo + 7 * i) df)))
          (zrange 0 (Z.to_nat ((hi - lo) / 7 + 1)))
  end.

(** [DataFrame.tail(n)] *)
Definition tail {A : Type} (n : nat) (l : list A) : list A :=
  skipn (List.length l - n) l.

(** What the dashboard shows for a non-empty frame (lines 101-127). *)
Record dashboard := mkDashboard {
  start : Z;
  end_ : Z;
  total : Q;
  last_30_days : Q;
  records : nat;
  monthly : list (Z * Q);
  weekly_chart : list (Z * Q)
}.

Definition render_dashboard (tf : timeframe) (dr : list Calendar.date)
    (r0 : Frame.row) (rest : list Frame.row) : result dashboard :=
  let df := r0 :: rest in
  bind (resolve_timeframe tf dr r0 rest) (fun '(start, end_) =>
  let df_filtered := between start end_ df in
  Ok (mkDashboard start end_
        (sum_amount df_filtered)
        (sum_amount (between (end_ - 30) end_ df))
        (List.length df_filtered)
        (resample_M df_filtered)
        (tail 12 (resample_W_MON df_filtered)))).

(** *** The script: one run of app.py renders one page *)

Inductive db_call :=
| call_init_db
| call_fetch_expenses
| call_add_expense (amount : Q) (category : string) (date_str : Db.date_arg)
    (notes : option string)
| call_add_demo_data.

(** What reaches the screen.  Tables and charts carry their data; their
    layout is not modelled. *)
Inductive ui_event :=
| st_error (msg : string)
| st_success_added (amount : Q) (category : string) (d : Calendar.date)
| st_success (msg : string)
| st_info (msg : string)
| st_records_found (filtered : list Frame.row)
| st_dashboard (d : dashboard).

Record world := mkWorld {
  store : Db.database;
  calls : list db_call;
  screen : list ui_event
}.

(** State and exceptions: an exception ends the run, the world stays as
    it was when the exception was raised. *)
Definition M (A : Type) : Type := world -> result A * world.

Definition ret {A : Type} (a : A) : M A := fun w => (Ok a, w).

Definition mbind {A B : Type} (m : M A) (k : A -> M B) : M B :=
  fun w =>
    match m w with
    | (Ok a, w') => k a w'
    | (Raise e, w') => (Raise e, w')
    end.

Notation "x <- m ;; k" := (mbind m (fun x => k))
  (at level 61, m at next level, right associativity).
Notation "m ;;; k" := (mbind m (fun _ => k))
  (at level 61, right associativity).

Definition lift {A : Type} (r : result A) : M A := fun w => (r, w).

Definition log (c : db_call) : M unit :=
  fun w => (Ok tt, mkWorld (store w) (calls w ++ [c]) (screen w)).

Definition emit (e : ui_event) : M unit :=
  fun w => (Ok tt, mkWorld (store w) (calls w) (screen w ++ [e])).

Definition db_init_db : M unit :=
  log call_init_db ;;;
  fun w => (Ok tt, mkWorld (Db.init_db (store w)) (calls w) (screen w)).

Definition db_fetch_expenses : M (list Frame.row) :=
  log call_fetch_expenses ;;;
  fun w => (Db.fetch_expenses (store w), w).

Definition db_add_expense (now : string) (amount : Q) (category : string)
    (date_str : Db.date_arg) (notes : option string) : M unit :=
  log (call_add_expense amount category date_str notes) ;;;
  fun w =>
    match Db.add_expense now amount category date_str notes (store w) with
    | Ok db' => (Ok tt, mkWorld db' (calls w) (screen w))
    | Raise e => (Raise e, w)
    end.

Definition db_add_demo_data (today : Z) (draws : list Db.draw) : M unit :=
  log call_add_demo_data ;;;
  fun w =>
    match Db.add_demo_data today draws (store w) with
    | Ok db' => (Ok tt, mkWorld db' (calls w) (screen w))
    | Raise e => (Raise e, w)
    end.

Inductive page_name :=
| Dashboard
| Add_Expense
| View_Export
| Settings.

(** The widget values of one run, with the clock and the random draws
    the run consumes. *)
Record inputs := mkInputs {
  page : page_name;
  (* Add Expense *)
  amount : Q;
  date_input : Calendar.date;
  category : string;
  notes : string;
  submitted : bool;
  (* View & Export *)
  date_range : list Calendar.date;
  selected_cats : list string;
  text_search : string;
  (* Dashboard *)
  timeframe_choice : timeframe;
  dr : list Calendar.date;
  (* Settings *)
  demo_button : bool;
  (* environment *)
  now : string;
  today : Z;
  draws : list Db.draw
}.

(** Lines 39-46. *)
Definition add_expense_submit (i : inputs) : M unit :=
  if Qle_bool (amount i) 0 then
    emit (st_error "Enter an amount > 0")
  else
    db_add_expense (now i) (amount i) (category i) (Db.DateObj (date_input i))
                   (Some (notes i)) ;;;
    emit (st_success_added (amount i) (category i) (date_input i)) ;;;
    _ <- db_fetch_expenses ;;
    ret tt.

Definition app (i : inputs) : M unit :=
  db_init_db ;;;
  df <- db_fetch_expenses ;;
  match page i with
  | Add_Expense =>
      if submitted i then add_expense_submit i else ret tt
  | View_Export =>
      match df with
      | [] => emit (st_info "No expenses recorded yet. Add one on the 'Add Expense' page.")
      | _ =>
          filtered <- lift (view_filtered df (date_range i) (selected_cats i)
                              (text_search i)) ;;
          emit (st_records_found filtered)
      end
  | Dashboard =>
      match df with
      | [] => emit (st_info "No data — add some expenses to see analytics.")
      | r0 :: rest =>
          d <- lift (render_dashboard (timeframe_choice i) (dr i) r0 rest) ;;
          emit (st_dashboard d)
      end
  | Settings =>
      if demo_button i then
        db_add_demo_data (today i) (draws i) ;;;
        emit (st_success "Demo data added. Refresh the app to see it.")
      else ret tt
  end.

(** What Python guarantees of the values a run receives: [date_input] is
    a [date] object, and the days [add_demo_data] steps back to exist. *)
Definition inputs_ok (i : inputs) : Prop :=
  Calendar.valid_date (date_input i) = true /\
  Forall (fun w => 1 <= today i - Db.days_back w <= Calendar.max_ordinal)
         (draws i).

(** A session: the runs of the script one after the other.  A run that
    raised leaves its world to the next run. *)
Fixpoint session (runs : list inputs) (w : world) : world :=
  match runs with
  | [] => w
  | i :: rest => session rest (snd (app i w))
  end.

End App.

(* ================================================================== *)
(** ** app.py: the widgets' defaults, the table on display, the breakdown *)
(* ================================================================== *)

Module Columns.

(** [sorted(col.unique())], and the group keys of [groupby] (which sorts
    them): the values of a text column, each once, in ascending order. *)
Fixpoint insert_key (c : string) (keys : list string) : list string :=
  match keys with
  | [] => [c]
  | k :: rest =>
      match String.compare c k with
      | Lt => c :: keys
      | Eq => keys
      | Gt => k :: insert_key c rest
      end
  end.

Definition unique_sorted (col : list string) : list string :=
  fold_right insert_key [] col.

End Columns.

Module View.

(** Line 59: [cats = sorted(df['category'].unique().tolist())], the options
    and the default of the category widget. *)
Definition cats (df : list Frame.row) : list string :=
  Columns.unique_sorted (map Frame.category df).

(** Lines 55-57: the default of the date widget, [(min_date, max_date)],
    for the frame [r0 :: rest]; [Timestamp.date()] is [fromordinal]. *)
Definition default_date_range (r0 : Frame.row) (rest : list Frame.row)
    : list Calendar.date :=
  [Calendar.ord2ymd (App.date_min r0 rest); Calendar.ord2ymd (App.date_max r0 rest)].

(** Line 72: [sort_values(by=['date','created_at'], ascending=[False, False])].
    [Lt] when [a] sorts before [b]; the sort on several columns is stable. *)
Definition by_date_created_at_desc (a b : Frame.row) : comparison :=
  match Frame.date b ?= Frame.date a with
  | Eq => String.compare (Frame.created_at b) (Frame.created_at a)
  | c => c
  end.

Fixpoint sort_insert (r : Frame.row) (l : list Frame.row) : list Frame.row :=
  match l with
  | [] => [r]
  | x :: t =>
      match by_date_created_at_desc r x with
      | Gt => x :: sort_insert r t
      | _ => r :: l
      end
  end.

Definition sort_values (filtered : list Frame.row) : list Frame.row :=
  fold_right sort_insert [] filtered.

End View.

Module Breakdown.

(** Line 132, first half: [groupby('category', as_index=False)['amount'].sum()]:
    one row for each category present, keys ascending, with the sum of the
    amounts of its rows. *)
Definition groupby_category_sum (df_filtered : list Frame.row) : list (string * Q) :=
  map (fun k => (k, App.sum_amount
                      (filter (fun r => String.eqb (Frame.category r) k) df_filtered)))
      (View.cats df_filtered).

(** Line 132, second half: [sort_values('amount', ascending=False)].  Rows
    of equal amount keep their order here; pandas does not fix it. *)
Fixpoint sort_insert (g : string * Q) (l : list (string * Q)) : list (string * Q) :=
  match l with
  | [] => [g]
  | x :: t =>
      if Qle_bool (snd x) (snd g) then g :: l else x :: sort_insert g t
  end.

Definition sort_values_amount_desc (groups : list (string * Q)) : list (string * Q) :=
  fold_right sort_insert [] groups.

Definition cat_df (df_filtered : list Frame.row) : list (string * Q) :=
  sort_values_amount_desc (groupby_category_sum df_filtered).

End Breakdown.

(** Sums of rationals written as a right fold, for statements up to [==]. *)
Module Sums.



End Sums.

(* ================================================================== *)
(** ** Positions in a frame and the order of its keys *)
(* ================================================================== *)

Module Ordering.


Definition text_ge (s t : string) : Prop := String.compare s t <> Lt.


(** [(date, created_at)] of [a] is at least, or more than, that of [b]. *)
Definition key_ge (a b : Frame.row) : Prop :=
  Frame.date a > Frame.date b \/
  (Frame.date a = Frame.date b /\ text_ge (Frame.created_at a) (Frame.created_at b)).


End Ordering.

(* ================================================================== *)
(** ** The weekly buckets in the words of the specification *)
(* ================================================================== *)

Module SpecWords.

(** The Monday on or before [ts]. *)
Definition week_start (ts : Z) : Z := ts - Calendar.weekday_of_ordinal ts.

(** "Bucket by week starting Monday": one bucket for every week from the
    week of the first date to the week of the last one, a week running
    from its Monday to the Sunday after it. *)
Definition weeks_starting_monday (df : list Frame.row) : list (Z * Q) :=
  match df with
  | [] => []
  | r0 :: rest =>
      let lo := week_start (App.date_min r0 rest) in
      let hi := week_start (App.date_max r0 rest) in
      map (fun i => (lo + 7 * i,
                     App.sum_amount
                       (filter (fun r => week_start (Frame.date r) =? lo + 7 * i) df)))
          (App.zrange 0 (Z.to_nat ((hi - lo) / 7 + 1)))
  end.

(** "Retain records whose notes contains it, case-insensitively", with
    the case of ASCII letters. *)
Fixpoint lower_string (s : string) : string :=
  match s with
  | EmptyString => EmptyString
  | String c s' => String (App.lower c) (lower_string s')
  end.

Definition contains_ci (term s : string) : Prop :=
  exists pre post,
    lower_string s = (pre ++ lower_string term ++ post)%string.

(** A search term of ordinary characters: no dot, no operator. *)
Definition plain (c : ascii) : bool :=
  negb (Ascii.eqb c ".") && negb (App.is_operator c).

Fixpoint all_plain (s : string) : bool :=
  match s with
  | EmptyString => true
  | String c s' => plain c && all_plain s'
  end.

End SpecWords.

(* ================================================================== *)
(** ** Sample data *)
(* ================================================================== *)

Module Sample.

(** 2024-01-15 is day 738900, a Monday. *)
Definition lunch : Frame.row :=
  Frame.mkRow 1 50 "Food" 738900 (Some "Team lunch"%string) "2024-01-15 12:00:00".

(** A row stored without notes (the default [notes=None] of [add_expense]). *)
Definition no_notes : Frame.row :=
  Frame.mkRow 2 20 "Food" 738900 None "2024-01-15 12:00:05".

(** 2024-01-21 is day 738906, the Sunday after. *)
Definition sunday : Frame.row :=
  Frame.mkRow 4 20 "Food" 738906 (Some "Brunch"%string) "2024-01-21 11:00:00".

(** 2024-06-15 is day 739052. *)
Definition rent : Frame.row :=
  Frame.mkRow 3 900 "Housing" 739052 (Some "Rent"%string) "2024-06-15 09:00:00".

Definition jan_1 : Calendar.date := Calendar.mkDate 2024 1 1.
Definition jan_15 : Calendar.date := Calendar.mkDate 2024 1 15.
Definition jan_31 : Calendar.date := Calendar.mkDate 2024 1 31.
Definition jun_15 : Calendar.date := Calendar.mkDate 2024 6 15.

(** The Add Expense form, submitted with the amount left at 0. *)
Definition zero_form : App.inputs :=
  App.mkInputs App.Add_Expense 0 jan_15 "Food" "" true
               [] [] "" App.Last_30_days [] false
               "2024-01-15 12:00:00" 738900 [].

Definition empty_world : App.world := App.mkWorld None [] [].

(** Two rows of the same day inserted within the same second. *)
Definition tie_table : Db.table :=
  Db.mkTable
    [Table.mkRow 1 50 "Food" "2024-01-15" (Some "lunch"%string) "2024-01-15 12:00:00";
     Table.mkRow 2 20 "Food" "2024-01-15" None "2024-01-15 12:00:00"]
    2.

Definition stored_world : App.world := App.mkWorld (Some tie_table) [] [].


End Sample.

(* ================================================================== *)
(** * Facts *)
(* ================================================================== *)

(** Linear arithmetic with division and remainder by constants. *)
Ltac zdiv := Z.div_mod_to_equations; lia.

(** ** The calendar *)

Module CalendarFacts.
Import Calendar.

Lemma days_before_year_succ y :
  days_before_year (y + 1) = days_before_year y + (if is_leap y then 366 else 365).
Proof.
  unfold days_before_year, is_leap.
  replace (y + 1 - 1) with y by lia.
  destruct (y mod 4 =? 0) eqn:E4; destruct (y mod 100 =? 0) eqn:E100;
  destruct (y mod 400 =? 0) eqn:E400; simpl;
  rewrite ?Z.eqb_eq, ?Z.eqb_neq in *; zdiv.
Qed.

Lemma is_leap_true_iff y :
  is_leap y = true <-> (y mod 4 = 0 /\ (y mod 100 <> 0 \/ y mod 400 = 0)).
Proof.
  unfold is_leap. rewrite andb_true_iff, orb_true_iff, negb_true_iff, !Z.eqb_eq, Z.eqb_neq.
  tauto.
Qed.

Lemma digit_cases k : 0 <= k <= 9 ->
  k = 0 \/ k = 1 \/ k = 2 \/ k = 3 \/ k = 4 \/ k = 5 \/ k = 6 \/ k = 7 \/ k = 8 \/ k = 9.
Proof. lia. Qed.

Ltac each_digit k H :=
  destruct (digit_cases k H) as [-> | [-> | [-> | [-> | [-> | [-> | [-> | [-> | [-> | ->]]]]]]]]].

Lemma digit_char_compare a b : 0 <= a <= 9 -> 0 <= b <= 9 ->
  Ascii.compare (digit_char a) (digit_char b) = (a ?= b).
Proof.
  intros Ha Hb. each_digit a Ha; each_digit b Hb; reflexivity.
Qed.

Lemma digit_val_char k : 0 <= k <= 9 -> digit_val (digit_char k) = Some k.
Proof. intros H. each_digit k H; reflexivity. Qed.

Lemma digit_val_inv c k : digit_val c = Some k -> c = digit_char k /\ 0 <= k <= 9.
Proof.
  unfold digit_val. set (n := Z.of_N (N_of_ascii c)).
  destruct ((48 <=? n) && (n <=? 57)) eqn:E; [|discriminate].
  intros [= <-]. apply andb_true_iff in E. rewrite !Z.leb_le in E.
  split; [|lia]. unfold digit_char.
  replace (48 + Z.to_N (n - 48))%N with (N_of_ascii c).
  - now rewrite ascii_N_embedding.
  - subst n. lia.
Qed.

Lemma compare_digit_cons a b s t : 0 <= a <= 9 -> 0 <= b <= 9 ->
  String.compare (String (digit_char a) s) (String (digit_char b) t) =
  match a ?= b with Eq => String.compare s t | c => c end.
Proof.
  intros Ha Hb. cbn [String.compare]. rewrite digit_char_compare by assumption.
  reflexivity.
Qed.

Lemma compare_same_cons c s t :
  String.compare (String c s) (String c t) = String.compare s t.
Proof.
  cbn [String.compare]. unfold Ascii.compare. now rewrite N.compare_refl.
Qed.

Lemma valid_date_bounds d : valid_date d = true ->
  1 <= year d <= 9999 /\ 1 <= month d <= 12 /\ 1 <= day d <= days_in_month (year d) (month d).
Proof.
  unfold valid_date. rewrite !andb_true_iff, !Z.leb_le. tauto.
Qed.

Lemma days_in_month_le y m : days_in_month y m <= 31.
Proof.
  unfold days_in_month. destruct ((m =? 2) && is_leap y); [lia|].
  destruct m as [|p|p]; try lia.
  do 4 (try destruct p as [p|p|]); lia.
Qed.

Lemma strftime_compare a b : valid_date a = true -> valid_date b = true ->
  String.compare (strftime_ymd a) (strftime_ymd b) = date_compare a b.
Proof.
  intros Ha Hb.
  apply valid_date_bounds in Ha. apply valid_date_bounds in Hb.
  pose proof (days_in_month_le (year a) (month a)).
  pose proof (days_in_month_le (year b) (month b)).
  destruct a as [ya ma da], b as [yb mb db]. cbn [year month day] in *.
  unfold strftime_ymd, pad4, pad2, date_compare. cbn [year month day].
  repeat (first [ rewrite compare_same_cons
                | rewrite compare_digit_cons by zdiv ]).
  cbn [String.compare].
  repeat match goal with
  | |- context [?x ?= ?y] => destruct (Z.compare_spec x y)
  end; try reflexivity; try (exfalso; zdiv).
Qed.

Lemma num2_pad n : 0 <= n <= 99 ->
  num2 (digit_char (n / 10 mod 10)) (digit_char (n mod 10)) = Some n.
Proof.
  intros H. unfold num2. rewrite !digit_val_char by zdiv. f_equal. zdiv.
Qed.

Lemma num4_pad n : 0 <= n <= 9999 ->
  num4 (digit_char (n / 1000 mod 10)) (digit_char (n / 100 mod 10))
       (digit_char (n / 10 mod 10)) (digit_char (n mod 10)) = Some n.
Proof.
  intros H. unfold num4, num2. rewrite !digit_val_char by zdiv. f_equal. zdiv.
Qed.

Lemma parse_strftime d : valid_date d = true -> parse_iso (strftime_ymd d) = Some d.
Proof.
  intros V. pose proof (valid_date_bounds d V) as (Hy & Hm & Hd).
  pose proof (days_in_month_le (year d) (month d)).
  destruct d as [y m dd]. cbn [year month day] in *.
  unfold strftime_ymd, pad4, pad2, parse_iso. cbn [year month day].
  change (is_dash "-") with true. cbn [andb].
  rewrite num4_pad, !num2_pad by lia. now rewrite V.
Qed.

Lemma num2_inv a b n : num2 a b = Some n ->
  0 <= n <= 99 /\ a = digit_char (n / 10 mod 10) /\ b = digit_char (n mod 10).
Proof.
  unfold num2. destruct (digit_val a) as [x|] eqn:Ea; [|discriminate].
  destruct (digit_val b) as [y|] eqn:Eb; [|discriminate].
  intros E. assert (n = 10 * x + y) by congruence. subst n. clear E.
  apply digit_val_inv in Ea, Eb. destruct Ea as [-> Hx], Eb as [-> Hy].
  split; [lia|]. split; f_equal; zdiv.
Qed.

Lemma num4_inv a b c d n : num4 a b c d = Some n ->
  0 <= n <= 9999 /\ a = digit_char (n / 1000 mod 10) /\ b = digit_char (n / 100 mod 10)
  /\ c = digit_char (n / 10 mod 10) /\ d = digit_char (n mod 10).
Proof.
  unfold num4. destruct (num2 a b) as [x|] eqn:Ea; [|discriminate].
  destruct (num2 c d) as [y|] eqn:Eb; [|discriminate].
  intros E. assert (n = 100 * x + y) by congruence. subst n. clear E.
  apply num2_inv in Ea, Eb.
  destruct Ea as (Hx & -> & ->), Eb as (Hy & -> & ->).
  split; [lia|]. repeat split; f_equal; zdiv.
Qed.

Lemma parse_iso_inv s d : parse_iso s = Some d -> valid_date d = true /\ s = strftime_ymd d.
Proof.
  unfold parse_iso.
  do 10 (destruct s as [|? s]; [discriminate|]). destruct s; [|discriminate].
  destruct (is_dash a3 && is_dash a6) eqn:Ed; [|discriminate].
  apply andb_true_iff in Ed. unfold is_dash in Ed. rewrite !Ascii.eqb_eq in Ed.
  destruct Ed as [-> ->].
  destruct (num4 a a0 a1 a2) as [y|] eqn:Ey; [|discriminate].
  destruct (num2 a4 a5) as [m|] eqn:Em; [|discriminate].
  destruct (num2 a7 a8) as [dd|] eqn:Edd; [|discriminate].
  destruct (valid_date _) eqn:V; [|discriminate].
  intros [= <-]. split; [exact V|].
  apply num4_inv in Ey. apply num2_inv in Em, Edd.
  destruct Ey as (_ & -> & -> & -> & ->), Em as (_ & -> & ->), Edd as (_ & -> & ->).
  reflexivity.
Qed.

(* monotone *)
Lemma days_before_year_mono y1 y2 : y1 <= y2 -> days_before_year y1 <= days_before_year y2.
Proof. unfold days_before_year. intros. zdiv. Qed.

Lemma month_cases m : 1 <= m <= 12 ->
  m = 1 \/ m = 2 \/ m = 3 \/ m = 4 \/ m = 5 \/ m = 6 \/ m = 7 \/ m = 8 \/ m = 9 \/ m = 10 \/ m = 11 \/ m = 12.
Proof. lia. Qed.

Ltac each_month m :=
  let H := fresh "Hmonth" in
  assert (H : 1 <= m <= 12) by lia;
  destruct (month_cases m H) as [-> | [-> | [-> | [-> | [-> | [-> | [-> | [-> | [-> | [-> | [-> | ->]]]]]]]]]]].

Lemma days_before_month_succ y m : 1 <= m <= 11 ->
  days_before_month y (m + 1) = days_before_month y m + days_in_month y m.
Proof.
  intros H. unfold days_before_month, days_in_month.
  each_month m; try lia; destruct (is_leap y); reflexivity.
Qed.

Lemma days_in_month_pos y m : 1 <= m <= 12 -> 28 <= days_in_month y m.
Proof.
  intros H. unfold days_in_month. each_month m; destruct (is_leap y); cbn; lia.
Qed.

Lemma days_before_month_mono y m1 m2 : 1 <= m1 -> m1 < m2 -> m2 <= 12 ->
  days_before_month y m1 + days_in_month y m1 <= days_before_month y m2.
Proof.
  intros H1 H12 H2. unfold days_before_month, days_in_month.
  each_month m1; each_month m2; try lia; destruct (is_leap y); cbn; lia.
Qed.

Lemma days_in_year y :
  days_before_month y 12 + days_in_month y 12 = if is_leap y then 366 else 365.
Proof. unfold days_before_month, days_in_month. destruct (is_leap y); reflexivity. Qed.

Lemma days_before_month_nonneg y m : 0 <= days_before_month y m.
Proof.
  unfold days_before_month.
  assert (0 <= DAYS_BEFORE_MONTH m).
  { destruct m as [|p|p]; cbn; try lia. do 4 (try destruct p as [p|p|]); lia. }
  destruct (_ && _); lia.
Qed.

Lemma day_of_year_bounds d : valid_date d = true ->
  1 <= days_before_month (year d) (month d) + day d <= if is_leap (year d) then 366 else 365.
Proof.
  intros V. apply valid_date_bounds in V. destruct V as (Hy & Hm & Hd).
  rewrite <- days_in_year.
  pose proof (days_before_month_nonneg (year d) (month d)).
  assert (month d = 12 \/ month d < 12) as [E|E] by lia.
  - rewrite E in *. lia.
  - pose proof (days_before_month_mono (year d) (month d) 12 ltac:(lia) E ltac:(lia)).
    pose proof (days_in_month_pos (year d) 12 ltac:(lia)). lia.
Qed.

Lemma toordinal_compare a b : valid_date a = true -> valid_date b = true ->
  (toordinal a ?= toordinal b) = date_compare a b.
Proof.
  intros Va Vb.
  pose proof (day_of_year_bounds a Va) as Da.
  pose proof (day_of_year_bounds b Vb) as Db.
  apply valid_date_bounds in Va, Vb.
  destruct Va as (Hya & Hma & Hda), Vb as (Hyb & Hmb & Hdb).
  unfold toordinal, ymd2ord, date_compare.
  destruct (Z.compare_spec (year a) (year b)) as [Ey|Ey|Ey].
  - rewrite Ey in *.
    destruct (Z.compare_spec (month a) (month b)) as [Em|Em|Em].
    + rewrite Em. destruct (Z.compare_spec (day a) (day b)); 
        [apply Z.compare_eq_iff|apply Z.compare_lt_iff|apply Z.compare_gt_iff]; lia.
    + pose proof (days_before_month_mono (year b) (month a) (month b) ltac:(lia) Em ltac:(lia)).
      apply Z.compare_lt_iff. lia.
    + pose proof (days_before_month_mono (year b) (month b) (month a) ltac:(lia) Em ltac:(lia)).
      apply Z.compare_gt_iff. lia.
  - apply Z.compare_lt_iff.
    pose proof (days_before_year_succ (year a)).
    pose proof (days_before_year_mono (year a + 1) (year b) ltac:(lia)). lia.
  - apply Z.compare_gt_iff.
    pose proof (days_before_year_succ (year b)).
    pose proof (days_before_year_mono (year b + 1) (year a) ltac:(lia)). lia.
Qed.

Lemma ord2ymd_shape n : 1 <= n ->
  toordinal (ord2ymd n) = n /\
  1 <= year (ord2ymd n) /\
  1 <= month (ord2ymd n) <= 12 /\
  1 <= day (ord2ymd n) <= days_in_month (year (ord2ymd n)) (month (ord2ymd n)).
Proof.
  intros Hn. unfold ord2ymd, DI400Y, DI100Y, DI4Y. cbv zeta.
  set (n0 := n - 1).
  set (n400 := n0 / 146097). set (r400 := n0 mod 146097).
  set (n100 := r400 / 36524). set (r100 := r400 mod 36524).
  set (n4 := r100 / 1461). set (r4 := r100 mod 1461).
  set (n1 := r4 / 365). set (r1 := r4 mod 365).
  assert (D : n - 1 = 146097 * n400 + 36524 * n100 + 1461 * n4 + 365 * n1 + r1 /\
              0 <= n400 /\ 0 <= n100 <= 4 /\ 0 <= n4 <= 24 /\ 0 <= n1 <= 4 /\
              0 <= r1 <= 364 /\
              36524 * n100 + 1461 * n4 + 365 * n1 + r1 <= 146096 /\
              1461 * n4 + 365 * n1 + r1 <= 36523 /\
              365 * n1 + r1 <= 1460).
  { subst n0 n400 r400 n100 r100 n4 r4 n1 r1. repeat split; zdiv. }
  clearbody n400 n100 n4 n1 r1. clear n0 r400 r100 r4.
  destruct D as (dc_eq & dc_400 & dc_100 & dc_4 & dc_1 & dc_r & dc_b400 & dc_b100 & dc_b4).
  destruct ((n1 =? 4) || (n100 =? 4)) eqn:E.
  - apply orb_true_iff in E. rewrite !Z.eqb_eq in E.
    cbn [year month day]. repeat split; try lia.
    + unfold toordinal, ymd2ord, days_before_month, days_before_year.
      cbn [year month day DAYS_BEFORE_MONTH].
      replace (2 <? 12) with true by reflexivity. cbn [andb].
      destruct (is_leap _) eqn:L.
      * apply is_leap_true_iff in L. zdiv.
      * assert (H : ~ (is_leap (n400 * 400 + 1 + n100 * 100 + n4 * 4 + n1 - 1) = true))
          by congruence.
        rewrite is_leap_true_iff in H. zdiv.
    + unfold days_in_month. cbn. lia.
  - apply orb_false_iff in E. rewrite !Z.eqb_neq in E.
    rewrite Z.shiftr_div_pow2 by lia. change (2 ^ 5) with 32.
    set (y := n400 * 400 + 1 + n100 * 100 + n4 * 4 + n1).
    set (lp := (n1 =? 3) && (negb (n4 =? 24) || (n100 =? 3))).
    assert (Hlp : is_leap y = lp).
    { subst lp y. destruct (is_leap _) eqn:L.
      - apply is_leap_true_iff in L. symmetry.
        rewrite andb_true_iff, orb_true_iff, negb_true_iff, !Z.eqb_eq, Z.eqb_neq. zdiv.
      - assert (H: ~ (is_leap (n400 * 400 + 1 + n100 * 100 + n4 * 4 + n1) = true)) by congruence.
        rewrite is_leap_true_iff in H. symmetry.
        apply not_true_is_false.
        rewrite andb_true_iff, orb_true_iff, negb_true_iff, !Z.eqb_eq, Z.eqb_neq. zdiv. }
    assert (Hy : days_before_year y = n - 1 - r1).
    { subst y. unfold days_before_year. zdiv. }
    assert (Hy1 : 1 <= y) by (subst y; lia).
    assert (Hr : lp = false -> r1 <= 364) by lia.
    assert (Hr' : r1 <= 365) by lia.
    set (m := (r1 + 50) / 32).
    assert (Hm : m = 1 \/ m = 2 \/ m = 3 \/ m = 4 \/ m = 5 \/ m = 6 \/ m = 7 \/
                 m = 8 \/ m = 9 \/ m = 10 \/ m = 11 \/ m = 12) by (subst m; zdiv).
    assert (Hm2 : 32 * m <= r1 + 50 < 32 * m + 32) by (subst m; zdiv).
    clearbody m y lp.
    destruct Hm as [-> | [-> | [-> | [-> | [-> | [-> | [-> | [-> | [-> | [-> | [-> | ->]]]]]]]]]]];
    destruct lp; cbn;
    match goal with |- context [if ?c then _ else _] => destruct c eqn:C end;
    unfold toordinal, ymd2ord, days_before_month, days_in_month;
    cbn [year month day]; rewrite ?Hlp; cbn;
    rewrite ?Z.ltb_lt, ?Z.ltb_ge in C; rewrite Hy; lia.
Qed.

Lemma ord2ymd_roundtrip n : 1 <= n -> toordinal (ord2ymd n) = n.
Proof. intros H. apply (ord2ymd_shape n H). Qed.

Lemma ord2ymd_valid n : 1 <= n <= max_ordinal -> valid_date (ord2ymd n) = true.
Proof.
  intros [H1 H2]. destruct (ord2ymd_shape n H1) as (Hr & Hy & Hm & Hd).
  unfold valid_date. rewrite !andb_true_iff, !Z.leb_le. repeat split; try lia.
  destruct (Z_le_gt_dec (year (ord2ymd n)) 9999) as [L|G]; [exact L|exfalso].
  assert (B : days_before_year 10000 <= days_before_year (year (ord2ymd n))).
  { unfold days_before_year. zdiv. }
  unfold toordinal, ymd2ord in Hr.
  assert (0 <= days_before_month (year (ord2ymd n)) (month (ord2ymd n))).
  { unfold days_before_month.
    assert (0 <= DAYS_BEFORE_MONTH (month (ord2ymd n))).
    { destruct (month (ord2ymd n)) as [|p|p]; cbn; try lia.
      do 4 (try destruct p as [p|p|]); lia. }
    destruct (_ && _); lia. }
  change (days_before_year 10000) with 3652059 in B. unfold max_ordinal in H2. lia.
Qed.

End CalendarFacts.

(** ** The filter block of View & Export *)

Lemma select_map_filter {A : Type} (f : A -> bool) (l : list A) :
  App.select l (map f l) = filter f l.
Proof.
  induction l as [|x l IH]; simpl; [reflexivity|].
  rewrite IH. reflexivity.
Qed.

Lemma isin_In (sel : list string) (c : string) :
  App.isin sel c = true <-> In c sel.
Proof.
  unfold App.isin. rewrite existsb_exists. split.
  - intros (x & Hx & E). apply String.eqb_eq in E. now subst.
  - intros H. exists c. split; [exact H|apply String.eqb_refl].
Qed.

(** C5. The date-range filter keeps exactly the rows dated from [start_dt]
    to [end_dt], both ends included, in their order; so a row dated exactly
    [start_dt] or exactly [end_dt] of a range that is not empty is kept. *)
Theorem date_range_filter_inclusive :
  forall (start_dt end_dt : Calendar.date) (df : list Frame.row),
    let lo := Calendar.toordinal start_dt in
    let hi := Calendar.toordinal end_dt in
    App.date_range_filter start_dt end_dt df
      = filter (fun r => (lo <=? Frame.date r) && (Frame.date r <=? hi)) df /\
    (forall r, In r (App.date_range_filter start_dt end_dt df) <->
               In r df /\ lo <= Frame.date r <= hi) /\
    (forall r, In r df -> lo <= hi ->
               Frame.date r = lo \/ Frame.date r = hi ->
               In r (App.date_range_filter start_dt end_dt df)).
Proof.
  intros start_dt end_dt df lo hi.
  assert (Hin : forall r, In r (App.date_range_filter start_dt end_dt df) <->
                          In r df /\ lo <= Frame.date r <= hi).
  { intros r. unfold App.date_range_filter. rewrite filter_In.
    fold lo hi. rewrite andb_true_iff, !Z.leb_le. tauto. }
  split; [reflexivity|]. split; [exact Hin|].
  intros r Hr Hle Hd. apply Hin. split; [exact Hr|]. lia.
Qed.

Lemma date_range_filter_inclusive_witness :
  In Sample.lunch
     (App.date_range_filter Sample.jan_15 Sample.jun_15 [Sample.lunch; Sample.rent]) /\
  In Sample.rent
     (App.date_range_filter Sample.jan_15 Sample.jun_15 [Sample.lunch; Sample.rent]).
Proof.
  pose proof (date_range_filter_inclusive Sample.jan_15 Sample.jun_15
                [Sample.lunch; Sample.rent]) as (_ & _ & H).
  split; apply H; simpl; try (vm_compute; intuition congruence); auto.
Defined.

(** C1, as the code has it.  The category filter is applied only when the
    selection is not empty: an empty selection keeps every row, and a
    selection that is not empty keeps exactly the rows whose category is
    one of the selected ones. *)
Theorem category_filter_spec :
  forall (selected_cats : list string) (df : list Frame.row),
    (selected_cats = [] -> App.category_filter selected_cats df = df) /\
    (selected_cats <> [] ->
       forall r, In r (App.category_filter selected_cats df) <->
                 In r df /\ In (Frame.category r) selected_cats).
Proof.
  intros sel df. split.
  - intros ->. reflexivity.
  - intros Hne r. destruct sel as [|c sel]; [congruence|].
    unfold App.category_filter. rewrite filter_In, isin_In. tauto.
Qed.

Lemma category_filter_spec_witness :
  App.category_filter [] [Sample.lunch; Sample.rent] = [Sample.lunch; Sample.rent] /\
  (In Sample.rent (App.category_filter ["Housing"%string] [Sample.lunch; Sample.rent])).
Proof.
  split.
  - apply (category_filter_spec [] [Sample.lunch; Sample.rent]). reflexivity.
  - apply (category_filter_spec ["Housing"%string] [Sample.lunch; Sample.rent]).
    + discriminate.
    + simpl. auto.
Defined.

(** C1, as the specification words it, fails: with nothing selected the
    filter does not drop the rows. *)
Lemma category_filter_empty_selection_keeps_rows :
  ~ (App.category_filter [] [Sample.lunch; Sample.rent] = []).
Proof. vm_compute. discriminate. Qed.

(** C3, at the failing input.  A row stored without notes is kept by the
    search term [none]: [astype(str)] has turned the missing value into
    the text [None] before [na=False] could set it aside. *)
Theorem text_search_matches_missing_notes :
  Frame.notes Sample.no_notes = None /\
  App.text_search_filter "none" [Sample.lunch; Sample.no_notes]
    = Ok [Sample.no_notes].
Proof. split; reflexivity. Qed.

(** The search term is a regular expression: [.] keeps every row whose
    notes have a character, with no dot in them. *)
Lemma text_search_dot_is_wildcard :
  App.text_search_filter "t.a" [Sample.lunch] = Ok [Sample.lunch].
Proof. reflexivity. Qed.

(** ** The Add Expense form *)

(** C6. A submission of the Add Expense form whose amount is zero or
    negative ends in the validation branch: the run returns normally,
    the error message is put on the screen, the list of storage calls is
    as before (so [add_expense] was not called) and the store is as
    before (no new row). *)
Theorem add_expense_rejects_nonpositive_amount :
  forall (i : App.inputs) (w : App.world),
    (App.amount i == 0 \/ App.amount i < 0)%Q ->
    App.add_expense_submit i w =
      (Ok tt,
       App.mkWorld (App.store w) (App.calls w)
                   (App.screen w ++ [App.st_error "Enter an amount > 0"])).
Proof.
  intros i w H. unfold App.add_expense_submit.
  assert (E : Qle_bool (App.amount i) 0 = true).
  { apply Qle_bool_iff. destruct H as [H|H].
    - rewrite H. apply Qle_refl.
    - apply Qlt_le_weak. exact H. }
  rewrite E. reflexivity.
Qed.

Lemma add_expense_rejects_nonpositive_amount_witness :
  App.add_expense_submit Sample.zero_form Sample.empty_world =
    (Ok tt, App.mkWorld None [] [App.st_error "Enter an amount > 0"]).
Proof.
  apply (add_expense_rejects_nonpositive_amount Sample.zero_form Sample.empty_world).
  left. reflexivity.
Defined.

(** The whole run of the script on such a submission. *)
Lemma app_rejects_nonpositive_amount :
  forall (i : App.inputs) (w : App.world),
    App.page i = App.Add_Expense ->
    App.submitted i = true ->
    (App.amount i <= 0)%Q ->
    let w' := snd (App.app i w) in
    App.store w' = Db.init_db (App.store w) /\
    App.calls w' = App.calls w ++ [App.call_init_db; App.call_fetch_expenses] /\
    Db.rows_of (App.store w') = Db.rows_of (App.store w).
Proof.
  intros i w Hp Hs Ha.
  assert (E : Qle_bool (App.amount i) 0 = true) by (now apply Qle_bool_iff).
  unfold App.app, App.mbind, App.db_init_db, App.db_fetch_expenses, App.log, App.mbind.
  cbn -[Db.fetch_expenses Db.init_db].
  destruct (Db.fetch_expenses (Db.init_db (App.store w))) as [df|e];
    cbn -[Db.init_db].
  - rewrite Hp, Hs. unfold App.add_expense_submit. rewrite E. cbn -[Db.init_db].
    rewrite <- app_assoc. cbn -[Db.init_db].
    repeat split. destruct (App.store w); reflexivity.
  - rewrite <- app_assoc. repeat split. destruct (App.store w); reflexivity.
Qed.

(** ** The storage layer never rewrites a row *)

Lemma init_db_rows db : Db.rows_of (Db.init_db db) = Db.rows_of db.
Proof. destruct db; reflexivity. Qed.

Lemma add_expense_rows now amount category date_str notes db db' :
  Db.add_expense now amount category date_str notes db = Ok db' ->
  exists r, Db.rows_of db' = Db.rows_of db ++ [r] /\
            Table.amount r = amount /\ Table.category r = category /\
            Table.notes r = notes /\ Table.created_at r = now /\
            Table.date r = match date_str with
                           | Db.DateObj d => Calendar.strftime_ymd d
                           | Db.DateStr s => s
                           end.
Proof.
  unfold Db.add_expense. destruct db as [t|]; [|discriminate].
  intros E. injection E as <-. eexists. cbn. split; [reflexivity|].
  repeat split; reflexivity.
Qed.


Lemma demo_loop_rows today draws : forall t,
  exists t' added,
    Db.demo_loop today draws (Some t) = Ok (Some t') /\
    Db.rows t' = Db.rows t ++ added /\
    List.length added = List.length draws.
Proof.
  induction draws as [|w rest IH]; intros t.
  - exists t, []. cbn. rewrite app_nil_r. auto.
  - cbn [Db.demo_loop Db.add_expense bind].
    destruct (IH (Db.mkTable
                    (Db.rows t ++
                       [Table.mkRow (Db.seq t + 1) (Db.demo_amount w) (Db.demo_category w)
                          (Calendar.strftime_ymd (Calendar.ord2ymd (today - Db.days_back w)))
                          (Some "Demo expense"%string) (Db.demo_now w)])
                    (Db.seq t + 1))) as (t' & added & E & R & L).
    exists t'. eexists (_ :: added). split; [exact E|]. split.
    + rewrite R. cbn [Db.rows]. rewrite <- app_assoc. reflexivity.
    + cbn. now rewrite L.
Qed.

(** [add_demo_data] never raises and appends one row per turn of its loop. *)
Lemma add_demo_data_rows today draws db :
  exists t' added,
    Db.add_demo_data today draws db = Ok (Some t') /\
    Db.rows t' = Db.rows_of db ++ added /\
    List.length added = Nat.min 60 (List.length draws).
Proof.
  unfold Db.add_demo_data.
  destruct db as [t|]; cbn [Db.init_db Db.rows_of].
  - destruct (demo_loop_rows today (firstn 60 draws) t) as (t' & added & E & R & L).
    exists t', added. rewrite length_firstn in L. auto.
  - destruct (demo_loop_rows today (firstn 60 draws) (Db.mkTable [] 0))
      as (t' & added & E & R & L).
    exists t', added. rewrite length_firstn in L. auto.
Qed.

Lemma run_keeps_rows (o : Db.operation) (db : Db.database) :
  exists added, Db.rows_of (Db.run o db) = Db.rows_of db ++ added.
Proof.
  destruct o as [|now amount category date_str notes| |today draws]; cbn [Db.run].
  - exists []. rewrite init_db_rows, app_nil_r. reflexivity.
  - destruct (Db.add_expense now amount category date_str notes db) as [db'|e] eqn:E.
    + destruct (add_expense_rows _ _ _ _ _ _ _ E) as (r & R & _). exists [r]. exact R.
    + exists []. now rewrite app_nil_r.
  - exists []. now rewrite app_nil_r.
  - destruct (add_demo_data_rows today draws db) as (t' & added & E & R & _).
    rewrite E. exists added. exact R.
Qed.

Ltac step_world :=
  cbn -[Db.fetch_expenses Db.init_db Db.add_expense Db.add_demo_data
        App.render_dashboard App.view_filtered].

Lemma app_keeps_rows (i : App.inputs) (w : App.world) :
  exists added,
    Db.rows_of (App.store (snd (App.app i w))) = Db.rows_of (App.store w) ++ added.
Proof.
  unfold App.app, App.mbind, App.db_init_db, App.db_fetch_expenses, App.log.
  step_world.
  destruct (Db.fetch_expenses (Db.init_db (App.store w))) as [df|e];
    step_world; [|exists []; now rewrite init_db_rows, app_nil_r].
  destruct (App.page i).
  - (* Dashboard *)
    destruct df as [|r0 rest]; step_world.
    + exists []. now rewrite init_db_rows, app_nil_r.
    + unfold App.lift, App.emit.
      destruct (App.render_dashboard _ _ _ _); step_world;
        exists []; now rewrite init_db_rows, app_nil_r.
  - (* Add Expense *)
    destruct (App.submitted i); [|exists []; step_world; now rewrite init_db_rows, app_nil_r].
    unfold App.add_expense_submit.
    destruct (Qle_bool (App.amount i) 0); step_world.
    + exists []. now rewrite init_db_rows, app_nil_r.
    + unfold App.db_add_expense, App.mbind, App.log.
      step_world.
      destruct (Db.add_expense _ _ _ _ _ (Db.init_db (App.store w))) as [db'|e] eqn:E;
        step_world.
      * destruct (add_expense_rows _ _ _ _ _ _ _ E) as (r & R & _).
        exists [r]. rewrite init_db_rows in R.
        destruct (Db.fetch_expenses db'); step_world; exact R.
      * exists []. now rewrite init_db_rows, app_nil_r.
  - (* View & Export *)
    destruct df as [|r0 rest]; step_world.
    + exists []. now rewrite init_db_rows, app_nil_r.
    + unfold App.lift, App.emit.
      destruct (App.view_filtered _ _ _ _); step_world;
        exists []; now rewrite init_db_rows, app_nil_r.
  - (* Settings *)
    destruct (App.demo_button i); step_world.
    + unfold App.db_add_demo_data, App.mbind, App.log.
      step_world.
      destruct (add_demo_data_rows (App.today i) (App.draws i) (Db.init_db (App.store w)))
        as (t' & added & E & R & _).
      rewrite E. step_world. exists added. rewrite R, init_db_rows. reflexivity.
    + exists []. now rewrite init_db_rows, app_nil_r.
Qed.

Lemma session_keeps_rows (runs : list App.inputs) : forall (w : App.world),
  exists added,
    Db.rows_of (App.store (App.session runs w)) = Db.rows_of (App.store w) ++ added.
Proof.
  induction runs as [|i rest IH]; intros w; cbn [App.session].
  - exists []. now rewrite app_nil_r.
  - destruct (IH (snd (App.app i w))) as (a2 & E2).
    destruct (app_keeps_rows i w) as (a1 & E1).
    exists (a1 ++ a2). rewrite E2, E1, app_assoc. reflexivity.
Qed.

(** C9. No operation updates or deletes a row.  Each of the four
    operations of the storage layer (initialize, insert, fetch, demo
    batch) leaves the rows it found, field for field and in place, and
    at most appends rows; so does every session of the pages.  Hence a
    row found at some position stays there with all its fields, its id
    included, and the number of rows never goes down. *)
Theorem rows_never_updated_or_deleted :
  (forall (o : Db.operation) (db : Db.database),
     exists added, Db.rows_of (Db.run o db) = Db.rows_of db ++ added) /\
  (forall (runs : list App.inputs) (w : App.world),
     exists added,
       Db.rows_of (App.store (App.session runs w)) = Db.rows_of (App.store w) ++ added) /\
  (forall (runs : list App.inputs) (w : App.world) (k : nat) (r : Table.row),
     nth_error (Db.rows_of (App.store w)) k = Some r ->
     nth_error (Db.rows_of (App.store (App.session runs w))) k = Some r) /\
  (forall (runs : list App.inputs) (w : App.world),
     (List.length (Db.rows_of (App.store w)) <=
      List.length (Db.rows_of (App.store (App.session runs w))))%nat).
Proof.
  split; [exact run_keeps_rows|]. split; [exact session_keeps_rows|]. split.
  - intros runs w k r H. destruct (session_keeps_rows runs w) as (added & E).
    rewrite E. rewrite nth_error_app1; [exact H|].
    apply nth_error_Some. congruence.
  - intros runs w. destruct (session_keeps_rows runs w) as (added & E).
    rewrite E, length_app. lia.
Qed.

(** ** The order of TEXT values *)

Lemma ascii_compare_refl c : Ascii.compare c c = Eq.
Proof. unfold Ascii.compare. apply N.compare_refl. Qed.

Lemma string_compare_refl s : String.compare s s = Eq.
Proof.
  induction s as [|c s IH]; cbn; [reflexivity|].
  now rewrite ascii_compare_refl.
Qed.

Lemma string_compare_lt_trans a : forall b c,
  String.compare a b = Lt -> String.compare b c = Lt -> String.compare a c = Lt.
Proof.
  induction a as [|x a IH]; intros [|y b] [|z c]; cbn; try congruence.
  destruct (Ascii.compare x y) eqn:Exy; try discriminate;
  destruct (Ascii.compare y z) eqn:Eyz; try discriminate; intros H1 H2.
  - apply Ascii.compare_eq_iff in Exy, Eyz. subst.
    rewrite ascii_compare_refl. eauto.
  - apply Ascii.compare_eq_iff in Exy. subst. now rewrite Eyz.
  - apply Ascii.compare_eq_iff in Eyz. subst. now rewrite Exy.
  - unfold Ascii.compare in *. rewrite N.compare_lt_iff in *.
    assert (L : (N_of_ascii x < N_of_ascii z)%N) by lia.
    apply N.compare_lt_iff in L. now rewrite L.
Qed.

Lemma string_compare_gt_lt a b : String.compare a b = Gt <-> String.compare b a = Lt.
Proof.
  rewrite (String.compare_antisym b a). destruct (String.compare a b); cbn;
    split; congruence.
Qed.

Lemma string_le_trans a b c :
  String.compare a b <> Gt -> String.compare b c <> Gt -> String.compare a c <> Gt.
Proof.
  intros H1 H2.
  destruct (String.compare a b) eqn:Eab; [| |congruence].
  - apply String.compare_eq_iff in Eab. now subst.
  - destruct (String.compare b c) eqn:Ebc; [| |congruence].
    + apply String.compare_eq_iff in Ebc. subst. congruence.
    + rewrite (string_compare_lt_trans a b c Eab Ebc). discriminate.
Qed.

(** ** [ORDER BY date DESC, created_at DESC] *)

Lemma order_by_trans a b c :
  Db.order_by a b <> Gt -> Db.order_by b c <> Gt -> Db.order_by a c <> Gt.
Proof.
  unfold Db.order_by. intros H1 H2.
  destruct (String.compare (Table.date b) (Table.date a)) eqn:Eba; [| |congruence];
  destruct (String.compare (Table.date c) (Table.date b)) eqn:Ecb; try congruence.
  - apply String.compare_eq_iff in Eba, Ecb. rewrite Ecb, Eba, string_compare_refl.
    eapply string_le_trans; eassumption.
  - apply String.compare_eq_iff in Eba. rewrite <- Eba, Ecb. discriminate.
  - apply String.compare_eq_iff in Ecb. rewrite Ecb, Eba. discriminate.
  - rewrite (string_compare_lt_trans _ _ _ Ecb Eba). discriminate.
Qed.

Lemma order_by_total a b : Db.order_by a b = Gt -> Db.order_by b a <> Gt.
Proof.
  unfold Db.order_by.
  rewrite (String.compare_antisym (Table.date b) (Table.date a)).
  rewrite (String.compare_antisym (Table.created_at b) (Table.created_at a)).
  destruct (String.compare (Table.date a) (Table.date b));
  destruct (String.compare (Table.created_at a) (Table.created_at b)); cbn; congruence.
Qed.

Lemma sort_insert_perm r l : Permutation (r :: l) (Db.sort_insert r l).
Proof.
  induction l as [|x l IH]; cbn; [reflexivity|].
  destruct (Db.order_by r x); try reflexivity.
  rewrite perm_swap. now constructor.
Qed.

Lemma select_all_ordered_perm t : Permutation (Db.rows t) (Db.select_all_ordered t).
Proof.
  unfold Db.select_all_ordered. induction (Db.rows t) as [|r l IH]; cbn; [reflexivity|].
  rewrite <- sort_insert_perm. now constructor.
Qed.

Lemma sort_insert_sorted r l :
  StronglySorted (fun a b => Db.order_by a b <> Gt) l ->
  StronglySorted (fun a b => Db.order_by a b <> Gt) (Db.sort_insert r l).
Proof.
  induction 1 as [|x l Hs IH Hx]; cbn.
  - repeat constructor.
  - destruct (Db.order_by r x) eqn:E.
    + constructor; [now constructor|]. constructor; [congruence|].
      rewrite Forall_forall in *. intros y Hy.
      apply (order_by_trans r x y); [congruence|auto].
    + constructor; [now constructor|]. constructor; [congruence|].
      rewrite Forall_forall in *. intros y Hy.
      apply (order_by_trans r x y); [congruence|auto].
    + constructor; [exact IH|].
      rewrite Forall_forall in *. intros y Hy.
      apply (Permutation_in _ (Permutation_sym (sort_insert_perm r l))) in Hy.
      destruct Hy as [<-|Hy]; [now apply order_by_total|auto].
Qed.

Lemma select_all_ordered_sorted t :
  StronglySorted (fun a b => Db.order_by a b <> Gt) (Db.select_all_ordered t).
Proof.
  unfold Db.select_all_ordered. induction (Db.rows t) as [|r l IH]; cbn.
  - constructor.
  - now apply sort_insert_sorted.
Qed.

(** ** Stored dates *)

Lemma is_iso_strftime d : Calendar.valid_date d = true ->
  Calendar.is_iso (Calendar.strftime_ymd d) = true.
Proof.
  intros V. unfold Calendar.is_iso. now rewrite CalendarFacts.parse_strftime.
Qed.

Lemma is_iso_inv s : Calendar.is_iso s = true ->
  exists d, Calendar.valid_date d = true /\ s = Calendar.strftime_ymd d /\
            Calendar.parse_iso s = Some d.
Proof.
  unfold Calendar.is_iso. destruct (Calendar.parse_iso s) as [d|] eqn:E; [|discriminate].
  intros _. exists d. destruct (CalendarFacts.parse_iso_inv s d E). auto.
Qed.

Lemma populated_rows_iso db : Db.populated db ->
  Forall (fun r => Calendar.is_iso (Table.date r) = true) (Db.rows_of db).
Proof.
  induction 1 as [|db now amount category date_str notes db' Hp IH Hok Hadd].
  - constructor.
  - unfold Db.add_expense in Hadd. destruct db as [t|]; [|discriminate].
    injection Hadd as <-. cbn [Db.rows_of Db.rows] in *.
    apply Forall_app. split; [exact IH|]. constructor; [|constructor].
    cbn [Table.date]. destruct date_str as [s|d]; cbn in Hok.
    + exact Hok.
    + now apply is_iso_strftime.
Qed.

Lemma iso_text_order s1 s2 :
  Calendar.is_iso s1 = true -> Calendar.is_iso s2 = true ->
  exists t1 t2, Db.to_datetime s1 = Ok t1 /\ Db.to_datetime s2 = Ok t2 /\
                String.compare s1 s2 = (t1 ?= t2).
Proof.
  intros H1 H2.
  destruct (is_iso_inv s1 H1) as (d1 & V1 & -> & P1).
  destruct (is_iso_inv s2 H2) as (d2 & V2 & -> & P2).
  exists (Calendar.toordinal d1), (Calendar.toordinal d2).
  unfold Db.to_datetime. rewrite P1, P2. repeat split.
  rewrite CalendarFacts.strftime_compare, CalendarFacts.toordinal_compare by assumption.
  reflexivity.
Qed.


(** ** [fetch_expenses] *)

Lemma fetch_expenses_eq t :
  Db.fetch_expenses (Some t) = mapM Db.to_frame_row (Db.select_all_ordered t).
Proof.
  unfold Db.fetch_expenses. destruct (Db.select_all_ordered t); reflexivity.
Qed.

Lemma mapM_to_frame_row l :
  Forall (fun r => Calendar.is_iso (Table.date r) = true) l ->
  exists df, mapM Db.to_frame_row l = Ok df /\
             Forall2 (fun r f => Db.to_frame_row r = Ok f) l df.
Proof.
  induction 1 as [|r l Hr Hl (df & E & F)].
  - exists []. split; [reflexivity|constructor].
  - destruct (is_iso_inv _ Hr) as (d & V & Ed & P).
    assert (Er : Db.to_frame_row r =
                 Ok (Frame.mkRow (Table.id r) (Table.amount r) (Table.category r)
                       (Calendar.toordinal d) (Table.notes r) (Table.created_at r))).
    { unfold Db.to_frame_row, Db.to_datetime. now rewrite P. }
    eexists. cbn [mapM]. rewrite Er, E. cbn [bind]. split; [reflexivity|].
    constructor; assumption.
Qed.

Lemma Forall2_nth_error_r {A B : Type} (R : A -> B -> Prop) l1 l2 :
  Forall2 R l1 l2 -> forall i b, nth_error l2 i = Some b ->
  exists a, nth_error l1 i = Some a /\ R a b.
Proof.
  induction 1 as [|x y l1 l2 Hxy H IH]; intros [|i] b E; cbn in *; try discriminate.
  - injection E as <-. eauto.
  - eauto.
Qed.


Lemma to_frame_row_inv r f :
  Db.to_frame_row r = Ok f ->
  Db.to_datetime (Table.date r) = Ok (Frame.date f) /\
  Frame.id f = Table.id r /\ Frame.amount f = Table.amount r /\
  Frame.category f = Table.category r /\ Frame.notes f = Table.notes r /\
  Frame.created_at f = Table.created_at r.
Proof.
  unfold Db.to_frame_row. destruct (Db.to_datetime (Table.date r)) as [ts|e]; cbn;
    [|discriminate].
  intros E. injection E as <-. cbn. repeat split; reflexivity.
Qed.

Lemma sorted_pair_key_ge ra rb fa fb :
  Calendar.is_iso (Table.date ra) = true -> Calendar.is_iso (Table.date rb) = true ->
  Db.to_frame_row ra = Ok fa -> Db.to_frame_row rb = Ok fb ->
  Db.order_by ra rb <> Gt -> Ordering.key_ge fa fb.
Proof.
  intros Ia Ib Ea Eb Ho.
  apply to_frame_row_inv in Ea, Eb.
  destruct Ea as (Da & _ & _ & _ & _ & Ca), Eb as (Db & _ & _ & _ & _ & Cb).
  destruct (iso_text_order _ _ Ib Ia) as (tb & ta & Tb & Ta & Ecmp).
  assert (ta = Frame.date fa) by congruence. assert (tb = Frame.date fb) by congruence.
  subst ta tb. unfold Db.order_by in Ho. rewrite Ecmp in Ho.
  unfold Ordering.key_ge, Ordering.text_ge. rewrite Ca, Cb.
  destruct (Z.compare_spec (Frame.date fb) (Frame.date fa)) as [E|L|G].
  - right. split; [lia|]. intros C. apply Ho.
    now apply string_compare_gt_lt.
  - left. lia.
  - congruence.
Qed.






(** An empty store is read as an empty frame. *)
Lemma fetch_expenses_empty db :
  Db.rows_of db = [] -> Db.fetch_expenses (Db.init_db db) = Ok [].
Proof.
  destruct db as [t|]; cbn [Db.init_db Db.rows_of]; [|reflexivity].
  intros E. rewrite fetch_expenses_eq. unfold Db.select_all_ordered. now rewrite E.
Qed.

(** ** The dashboard: timeframe and metrics *)

Lemma fold_max_spec l : forall x,
  (fold_left Z.max l x = x \/ In (fold_left Z.max l x) l) /\
  x <= fold_left Z.max l x /\
  (forall y, In y l -> y <= fold_left Z.max l x).
Proof.
  induction l as [|a l IH]; intros x; cbn.
  - split; [auto|]. split; [lia|]. intros y [].
  - destruct (IH (Z.max x a)) as (Hin & Hx & Hall). split; [|split].
    + destruct Hin as [E|Hin]; [|auto].
      rewrite E. destruct (Z.max_spec x a) as [[_ ->]|[_ ->]]; auto.
    + lia.
    + intros y [<-|Hy]; [lia|auto].
Qed.

Lemma fold_min_spec l : forall x,
  (fold_left Z.min l x = x \/ In (fold_left Z.min l x) l) /\
  fold_left Z.min l x <= x /\
  (forall y, In y l -> fold_left Z.min l x <= y).
Proof.
  induction l as [|a l IH]; intros x; cbn.
  - split; [auto|]. split; [lia|]. intros y [].
  - destruct (IH (Z.min x a)) as (Hin & Hx & Hall). split; [|split].
    + destruct Hin as [E|Hin]; [|auto].
      rewrite E. destruct (Z.min_spec x a) as [[_ ->]|[_ ->]]; auto.
    + lia.
    + intros y [<-|Hy]; [lia|auto].
Qed.

Lemma date_max_spec r0 rest :
  In (App.date_max r0 rest) (map Frame.date (r0 :: rest)) /\
  (forall r, In r (r0 :: rest) -> Frame.date r <= App.date_max r0 rest).
Proof.
  unfold App.date_max.
  destruct (fold_max_spec (map Frame.date rest) (Frame.date r0)) as (Hin & Hx & Hall).
  split.
  - cbn. destruct Hin as [->|Hin]; auto.
  - intros r [<-|Hr]; [exact Hx|]. apply Hall. now apply in_map.
Qed.

Lemma date_min_spec r0 rest :
  In (App.date_min r0 rest) (map Frame.date (r0 :: rest)) /\
  (forall r, In r (r0 :: rest) -> App.date_min r0 rest <= Frame.date r).
Proof.
  unfold App.date_min.
  destruct (fold_min_spec (map Frame.date rest) (Frame.date r0)) as (Hin & Hx & Hall).
  split.
  - cbn. destruct Hin as [->|Hin]; auto.
  - intros r [<-|Hr]; [exact Hx|]. apply Hall. now apply in_map.
Qed.

Lemma days_before_month_jan y : Calendar.days_before_month y 1 = 0.
Proof. reflexivity. Qed.

(** The first of January of the year of day [n] opens the calendar year
    that holds [n]. *)
Lemma year_start_spec n :
  1 <= n <= Calendar.max_ordinal ->
  Calendar.ymd2ord (Calendar.year (Calendar.ord2ymd n)) 1 1 <= n
    < Calendar.ymd2ord (Calendar.year (Calendar.ord2ymd n) + 1) 1 1.
Proof.
  intros Hn.
  pose proof (CalendarFacts.ord2ymd_valid n Hn) as V.
  pose proof (CalendarFacts.day_of_year_bounds _ V) as B.
  pose proof (CalendarFacts.ord2ymd_roundtrip n ltac:(lia)) as R.
  revert V B R. generalize (Calendar.ord2ymd n). intros [y m d] _ B R.
  unfold Calendar.toordinal, Calendar.ymd2ord in *.
  cbn [Calendar.year Calendar.month Calendar.day] in *.
  pose proof (CalendarFacts.days_before_year_succ y) as S.
  rewrite !days_before_month_jan.
  destruct (Calendar.is_leap y); lia.
Qed.

(** C8. For a frame that is not empty, [hi] is the greatest and [lo] the
    least date of the frame, and the named timeframes resolve to:
    "Last 30 days" [(hi - 30, hi)], "Last 90 days" [(hi - 90, hi)],
    "Year to date" [(1 January of the year of hi, hi)], "All time"
    [(lo, hi)].  For a day number in the range of [date], that first of
    January opens the calendar year that holds [hi]. *)
Theorem resolve_timeframe_named :
  forall (dr : list Calendar.date) (r0 : Frame.row) (rest : list Frame.row),
    let df := r0 :: rest in
    let hi := App.date_max r0 rest in
    let lo := App.date_min r0 rest in
    (In hi (map Frame.date df) /\ forall r, In r df -> Frame.date r <= hi) /\
    (In lo (map Frame.date df) /\ forall r, In r df -> lo <= Frame.date r) /\
    App.resolve_timeframe App.Last_30_days dr r0 rest = Ok (hi - 30, hi) /\
    App.resolve_timeframe App.Last_90_days dr r0 rest = Ok (hi - 90, hi) /\
    App.resolve_timeframe App.Year_to_date dr r0 rest
      = Ok (Calendar.ymd2ord (Calendar.year (Calendar.ord2ymd hi)) 1 1, hi) /\
    App.resolve_timeframe App.All_time dr r0 rest = Ok (lo, hi) /\
    (1 <= hi <= Calendar.max_ordinal ->
     Calendar.ymd2ord (Calendar.year (Calendar.ord2ymd hi)) 1 1 <= hi
       < Calendar.ymd2ord (Calendar.year (Calendar.ord2ymd hi) + 1) 1 1).
Proof.
  intros dr r0 rest df hi lo.
  split; [apply date_max_spec|]. split; [apply date_min_spec|].
  split; [reflexivity|]. split; [reflexivity|]. split; [reflexivity|].
  split; [reflexivity|]. apply year_start_spec.
Qed.

Lemma resolve_timeframe_named_witness :
  Calendar.ymd2ord 2024 1 1 <= 739052 < Calendar.ymd2ord 2025 1 1.
Proof.
  pose proof (resolve_timeframe_named [] Sample.rent [Sample.lunch])
    as (_ & _ & _ & _ & _ & _ & H).
  apply H. vm_compute. split; discriminate.
Defined.

Lemma render_dashboard_last_30 tf dr r0 rest lo hi :
  App.resolve_timeframe tf dr r0 rest = Ok (lo, hi) ->
  exists d, App.render_dashboard tf dr r0 rest = Ok d /\
            App.start d = lo /\ App.end_ d = hi /\
            App.last_30_days d =
              App.sum_amount
                (filter (fun r => (hi - 30 <=? Frame.date r) && (Frame.date r <=? hi))
                        (r0 :: rest)).
Proof.
  intros E. unfold App.render_dashboard. rewrite E. cbn [bind].
  eexists. split; [reflexivity|]. cbn. auto.
Qed.

(** C2, as the code has it.  The "Last 30 days" metric is the sum of the
    amounts of the rows dated from [end - 30] to [end], where [end] is
    the end of the resolved timeframe: the greatest date of all rows for
    the four named timeframes, and the second date the user picked under
    "Custom range". *)
Theorem last_30_days_ends_at_timeframe_end :
  forall (r0 : Frame.row) (rest : list Frame.row),
    let df := r0 :: rest in
    (forall tf dr, tf <> App.Custom_range ->
       exists d, App.render_dashboard tf dr r0 rest = Ok d /\
                 App.end_ d = App.date_max r0 rest /\
                 App.last_30_days d =
                   App.sum_amount
                     (filter (fun r => (App.date_max r0 rest - 30 <=? Frame.date r) &&
                                       (Frame.date r <=? App.date_max r0 rest)) df)) /\
    (forall d0 d1 more,
       exists d, App.render_dashboard App.Custom_range (d0 :: d1 :: more) r0 rest = Ok d /\
                 App.end_ d = Calendar.toordinal d1 /\
                 App.last_30_days d =
                   App.sum_amount
                     (filter (fun r => (Calendar.toordinal d1 - 30 <=? Frame.date r) &&
                                       (Frame.date r <=? Calendar.toordinal d1)) df)).
Proof.
  intros r0 rest df. split.
  - intros tf dr Htf.
    assert (E : exists lo, App.resolve_timeframe tf dr r0 rest
                           = Ok (lo, App.date_max r0 rest)).
    { destruct tf; try congruence; eexists; reflexivity. }
    destruct E as (lo & E).
    destruct (render_dashboard_last_30 _ _ _ _ _ _ E) as (d & Ed & _ & He & Hl).
    exists d. auto.
  - intros d0 d1 more.
    destruct (render_dashboard_last_30 App.Custom_range (d0 :: d1 :: more) r0 rest
                (Calendar.toordinal d0) (Calendar.toordinal d1) eq_refl)
      as (d & Ed & _ & He & Hl).
    exists d. auto.
Qed.

Lemma last_30_days_ends_at_timeframe_end_witness :
  exists d, App.render_dashboard App.Last_30_days [] Sample.rent [Sample.lunch] = Ok d /\
            App.end_ d = 739052.
Proof.
  destruct (last_30_days_ends_at_timeframe_end Sample.rent [Sample.lunch]) as (H & _).
  destruct (H App.Last_30_days []) as (d & E & He & _); [discriminate|].
  exists d. split; [exact E|]. rewrite He. reflexivity.
Defined.

(** C2, as the specification words it, fails under "Custom range". *)
Lemma last_30_days_follows_custom_range :
  exists d,
    App.render_dashboard App.Custom_range [Sample.jan_1; Sample.jan_31]
                         Sample.rent [Sample.lunch] = Ok d /\
    ~ (App.last_30_days d ==
       App.sum_amount
         (filter (fun r => (App.date_max Sample.rent [Sample.lunch] - 30 <=? Frame.date r) &&
                           (Frame.date r <=? App.date_max Sample.rent [Sample.lunch]))
                 [Sample.rent; Sample.lunch]))%Q.
Proof.
  eexists. split; [reflexivity|]. vm_compute. discriminate.
Qed.

(** ** More on the calendar: [fromordinal] after [toordinal] *)

Lemma toordinal_range d : Calendar.valid_date d = true ->
  1 <= Calendar.toordinal d <= Calendar.max_ordinal.
Proof.
  intros V. pose proof (CalendarFacts.day_of_year_bounds d V) as B.
  apply CalendarFacts.valid_date_bounds in V. destruct V as (Hy & _ & _).
  unfold Calendar.toordinal, Calendar.ymd2ord, Calendar.max_ordinal.
  destruct d as [y m dd]. cbn [Calendar.year Calendar.month Calendar.day] in *.
  pose proof (CalendarFacts.days_before_year_succ y) as S.
  pose proof (CalendarFacts.days_before_year_mono 1 y ltac:(lia)) as M1.
  pose proof (CalendarFacts.days_before_year_mono (y + 1) 10000 ltac:(lia)) as M2.
  change (Calendar.days_before_year 1) with 0 in M1.
  change (Calendar.days_before_year 10000) with 3652059 in M2.
  destruct (Calendar.is_leap y); lia.
Qed.

Lemma date_compare_eq a b : Calendar.date_compare a b = Eq -> a = b.
Proof.
  unfold Calendar.date_compare. destruct a as [ya ma da], b as [yb mb db].
  cbn [Calendar.year Calendar.month Calendar.day].
  destruct (Z.compare_spec ya yb); try discriminate.
  destruct (Z.compare_spec ma mb); try discriminate.
  destruct (Z.compare_spec da db); try discriminate.
  intros _. congruence.
Qed.

Lemma ord2ymd_toordinal d : Calendar.valid_date d = true ->
  Calendar.ord2ymd (Calendar.toordinal d) = d.
Proof.
  intros V. pose proof (toordinal_range d V) as R.
  pose proof (CalendarFacts.ord2ymd_valid _ R) as V'.
  pose proof (CalendarFacts.ord2ymd_roundtrip (Calendar.toordinal d) ltac:(lia)) as E.
  revert V' E. generalize (Calendar.ord2ymd (Calendar.toordinal d)). intros d' V' E.
  apply date_compare_eq. rewrite <- CalendarFacts.toordinal_compare by assumption.
  rewrite E. apply Z.compare_refl.
Qed.

(** ** Buckets of [resample] *)

Lemma zrange_length lo n : List.length (App.zrange lo n) = n.
Proof. unfold App.zrange. now rewrite length_map, length_seq. Qed.

Lemma zrange_nth lo n i : (i < n)%nat ->
  nth_error (App.zrange lo n) i = Some (lo + Z.of_nat i).
Proof.
  intros H. unfold App.zrange. rewrite nth_error_map.
  rewrite nth_error_seq. 
  destruct (Nat.ltb_spec i n); [reflexivity|lia].
Qed.

Lemma month_index_mono n1 n2 :
  1 <= n1 -> n1 <= n2 -> n2 <= Calendar.max_ordinal ->
  App.month_index n1 <= App.month_index n2.
Proof.
  intros H1 H12 H2. unfold App.month_index.
  pose proof (CalendarFacts.ord2ymd_valid n1 ltac:(lia)) as V1.
  pose proof (CalendarFacts.ord2ymd_valid n2 ltac:(lia)) as V2.
  pose proof (CalendarFacts.ord2ymd_roundtrip n1 ltac:(lia)) as R1.
  pose proof (CalendarFacts.ord2ymd_roundtrip n2 ltac:(lia)) as R2.
  revert V1 R1 V2 R2.
  generalize (Calendar.ord2ymd n1) (Calendar.ord2ymd n2). intros d1 d2 V1 R1 V2 R2.
  pose proof (CalendarFacts.toordinal_compare d1 d2 V1 V2) as C.
  rewrite R1, R2 in C.
  apply CalendarFacts.valid_date_bounds in V1, V2.
  unfold Calendar.date_compare in C. cbv zeta.
  destruct (Z.compare_spec n1 n2) as [E|L|G]; [| |lia].
  - destruct (Z.compare_spec (Calendar.year d1) (Calendar.year d2)); try discriminate.
    destruct (Z.compare_spec (Calendar.month d1) (Calendar.month d2)); try discriminate.
    lia.
  - destruct (Z.compare_spec (Calendar.year d1) (Calendar.year d2)); try discriminate;
      [|lia].
    destruct (Z.compare_spec (Calendar.month d1) (Calendar.month d2)); try discriminate;
      lia.
Qed.

Lemma days_in_month_valid y m : 1 <= y <= 9999 -> 1 <= m <= 12 ->
  Calendar.valid_date (Calendar.mkDate y m (Calendar.days_in_month y m)) = true.
Proof.
  intros Hy Hm. pose proof (CalendarFacts.days_in_month_pos y m Hm).
  unfold Calendar.valid_date. cbn [Calendar.year Calendar.month Calendar.day].
  rewrite !andb_true_iff, !Z.leb_le. lia.
Qed.

(** The label of a monthly bin lies in the month it labels. *)
Lemma month_index_month_end k : 12 <= k < 120000 ->
  App.month_index (App.month_end k) = k.
Proof.
  intros Hk. unfold App.month_index, App.month_end. cbv zeta.
  change (Calendar.ymd2ord (k / 12) (k mod 12 + 1)
            (Calendar.days_in_month (k / 12) (k mod 12 + 1)))
    with (Calendar.toordinal
            (Calendar.mkDate (k / 12) (k mod 12 + 1)
               (Calendar.days_in_month (k / 12) (k mod 12 + 1)))).
  rewrite ord2ymd_toordinal by (apply days_in_month_valid; zdiv).
  cbn [Calendar.year Calendar.month]. zdiv.
Qed.

Lemma week_label_spec ts :
  Calendar.weekday_of_ordinal (App.week_label ts) = 0 /\
  ts <= App.week_label ts <= ts + 6.
Proof. unfold App.week_label, Calendar.weekday_of_ordinal. zdiv. Qed.

Lemma week_label_iff ts L :
  App.week_label ts = L <->
  Calendar.weekday_of_ordinal L = 0 /\ L - 7 < ts <= L.
Proof. unfold App.week_label, Calendar.weekday_of_ordinal. zdiv. Qed.

Lemma week_label_mono a b : a <= b -> App.week_label a <= App.week_label b.
Proof. unfold App.week_label, Calendar.weekday_of_ordinal. zdiv. Qed.

Lemma week_label_step a b : a <= b ->
  App.week_label a + 7 * ((App.week_label b - App.week_label a) / 7) = App.week_label b.
Proof. unfold App.week_label, Calendar.weekday_of_ordinal. zdiv. Qed.

Lemma week_bucket_filter L df :
  Calendar.weekday_of_ordinal L = 0 ->
  filter (fun r => App.week_label (Frame.date r) =? L) df =
  filter (fun r => (L - 7 <? Frame.date r) && (Frame.date r <=? L)) df.
Proof.
  intros HL. apply filter_ext. intros r.
  destruct (Z.eqb_spec (App.week_label (Frame.date r)) L) as [E|N].
  - apply week_label_iff in E. symmetry. rewrite andb_true_iff, Z.ltb_lt, Z.leb_le. lia.
  - symmetry. apply not_true_is_false. rewrite andb_true_iff, Z.ltb_lt, Z.leb_le.
    intros H. apply N. apply week_label_iff. auto.
Qed.

Lemma tail_spec {A : Type} (n : nat) (l : list A) :
  List.length (App.tail n l) = Nat.min n (List.length l) /\
  exists dropped, l = dropped ++ App.tail n l.
Proof.
  unfold App.tail. split.
  - rewrite length_skipn. lia.
  - exists (firstn (List.length l - n) l). symmetry. apply firstn_skipn.
Qed.

(** ** [resample('M')] and [resample('W-MON')] *)

Lemma filter_none {A : Type} (f : A -> bool) (l : list A) :
  (forall x, In x l -> f x = false) -> filter f l = [].
Proof.
  induction l as [|x l IH]; intros H; cbn; [reflexivity|].
  rewrite (H x (or_introl eq_refl)). apply IH. intros y Hy. apply H. now right.
Qed.

Lemma resample_M_nth r0 rest k :
  let df := r0 :: rest in
  let mlo := App.month_index (App.date_min r0 rest) in
  let mhi := App.month_index (App.date_max r0 rest) in
  mlo <= k <= mhi ->
  nth_error (App.resample_M df) (Z.to_nat (k - mlo)) =
    Some (App.month_end k,
          App.sum_amount (filter (fun r => App.month_index (Frame.date r) =? k) df)).
Proof.
  intros df mlo mhi Hk. unfold App.resample_M, df. fold mlo mhi.
  rewrite nth_error_map, zrange_nth by lia. cbn [option_map].
  replace (mlo + Z.of_nat (Z.to_nat (k - mlo))) with k by lia. reflexivity.
Qed.

Lemma resample_W_MON_nth r0 rest i :
  let df := r0 :: rest in
  let wlo := App.week_label (App.date_min r0 rest) in
  let whi := App.week_label (App.date_max r0 rest) in
  0 <= i <= (whi - wlo) / 7 ->
  Calendar.weekday_of_ordinal (wlo + 7 * i) = 0 /\
  nth_error (App.resample_W_MON df) (Z.to_nat i) =
    Some (wlo + 7 * i,
          App.sum_amount
            (filter (fun r => (wlo + 7 * i - 7 <? Frame.date r) &&
                              (Frame.date r <=? wlo + 7 * i)) df)).
Proof.
  intros df wlo whi Hi.
  assert (HL : Calendar.weekday_of_ordinal (wlo + 7 * i) = 0).
  { destruct (week_label_spec (App.date_min r0 rest)) as (W & _). fold wlo in W.
    revert W. unfold Calendar.weekday_of_ordinal. generalize wlo. intros. zdiv. }
  split; [exact HL|].
  unfold App.resample_W_MON, df. fold wlo whi.
  rewrite nth_error_map, zrange_nth by lia. cbn [option_map].
  replace (0 + Z.of_nat (Z.to_nat i)) with i by lia.
  now rewrite week_bucket_filter.
Qed.

(** C7, as the code has it.  For a frame that is not empty, the monthly
    resampling emits one bucket for every calendar month from the month
    of the least date to the month of the greatest one, each with the sum
    of the amounts of its month, a month without rows with amount 0.  The
    weekly resampling emits one bucket for every Monday from the first
    Monday on or after the least date to the first Monday on or after the
    greatest one; the bucket of Monday [L] sums the rows dated after
    [L - 7] and up to [L] (Tuesday to Monday), and every row falls in
    one of them.  The weekly chart keeps the last 12 of these buckets, or
    all of them when there are fewer. *)
Theorem resample_emits_every_bucket :
  forall (r0 : Frame.row) (rest : list Frame.row),
    let df := r0 :: rest in
    let mlo := App.month_index (App.date_min r0 rest) in
    let mhi := App.month_index (App.date_max r0 rest) in
    let wlo := App.week_label (App.date_min r0 rest) in
    let whi := App.week_label (App.date_max r0 rest) in
    (* months *)
    List.length (App.resample_M df) = Z.to_nat (mhi - mlo + 1) /\
    (forall k, mlo <= k <= mhi ->
       nth_error (App.resample_M df) (Z.to_nat (k - mlo)) =
         Some (App.month_end k,
               App.sum_amount
                 (filter (fun r => App.month_index (Frame.date r) =? k) df))) /\
    (forall k, mlo <= k <= mhi ->
       (forall r, In r df -> App.month_index (Frame.date r) <> k) ->
       In (App.month_end k, 0%Q) (App.resample_M df)) /\
    ((forall r, In r df -> 1 <= Frame.date r <= Calendar.max_ordinal) ->
       forall r, In r df -> mlo <= App.month_index (Frame.date r) <= mhi) /\
    (* weeks *)
    (wlo <= whi /\ wlo + 7 * ((whi - wlo) / 7) = whi) /\
    List.length (App.resample_W_MON df) = Z.to_nat ((whi - wlo) / 7 + 1) /\
    (forall i, 0 <= i <= (whi - wlo) / 7 ->
       Calendar.weekday_of_ordinal (wlo + 7 * i) = 0 /\
       nth_error (App.resample_W_MON df) (Z.to_nat i) =
         Some (wlo + 7 * i,
               App.sum_amount
                 (filter (fun r => (wlo + 7 * i - 7 <? Frame.date r) &&
                                   (Frame.date r <=? wlo + 7 * i)) df))) /\
    (forall r, In r df -> wlo <= App.week_label (Frame.date r) <= whi) /\
    (* the weekly chart *)
    (List.length (App.tail 12 (App.resample_W_MON df))
       = Nat.min 12 (List.length (App.resample_W_MON df)) /\
     exists dropped,
       App.resample_W_MON df = dropped ++ App.tail 12 (App.resample_W_MON df)).
Proof.
  intros r0 rest df mlo mhi wlo whi.
  pose proof (date_max_spec r0 rest) as (_ & Hmax).
  pose proof (date_min_spec r0 rest) as (Hminin & Hmin).
  assert (Hmm : App.date_min r0 rest <= App.date_max r0 rest).
  { apply in_map_iff in Hminin. destruct Hminin as (r & <- & Hr). now apply Hmax. }
  split; [|split; [|split; [|split; [|split; [|split; [|split; [|split]]]]]]].
  - unfold App.resample_M, df. fold mlo mhi. now rewrite length_map, zrange_length.
  - intros k Hk. now apply resample_M_nth.
  - intros k Hk Hnone.
    pose proof (resample_M_nth r0 rest k Hk) as E.
    rewrite filter_none in E.
    + eapply nth_error_In. exact E.
    + intros r Hr. apply Z.eqb_neq. now apply Hnone.
  - intros Hrange r Hr.
    assert (In (App.date_min r0 rest) (map Frame.date df)) as Hi by exact Hminin.
    apply in_map_iff in Hi. destruct Hi as (rm & Em & Hrm).
    pose proof (Hrange rm Hrm) as Rm. rewrite Em in Rm.
    pose proof (date_max_spec r0 rest) as (Hmaxin & _).
    apply in_map_iff in Hmaxin. destruct Hmaxin as (rM & EM & HrM).
    pose proof (Hrange rM HrM) as RM. rewrite EM in RM.
    pose proof (Hrange r Hr). pose proof (Hmin r Hr). pose proof (Hmax r Hr).
    split; apply month_index_mono; lia.
  - split; [now apply week_label_mono|now apply week_label_step].
  - unfold App.resample_W_MON, df. fold wlo whi. now rewrite length_map, zrange_length.
  - intros i Hi. now apply resample_W_MON_nth.
  - intros r Hr. pose proof (Hmin r Hr). pose proof (Hmax r Hr).
    split; now apply week_label_mono.
  - apply tail_spec.
Qed.

Lemma resample_emits_every_bucket_witness :
  In (App.month_end (12 * 2024 + 2), 0%Q)
     (App.resample_M [Sample.rent; Sample.lunch]).
Proof.
  pose proof (resample_emits_every_bucket Sample.rent [Sample.lunch])
    as (_ & _ & H & _).
  apply (H (12 * 2024 + 2)).
  - vm_compute. split; discriminate.
  - intros r [<-|[<-|[]]]; vm_compute; discriminate.
Defined.

(** C7, as the specification words it, fails for weeks: a Monday and the
    Sunday that follows it share a week that starts on Monday, and land
    in two bins. *)
Lemma weekly_bins_do_not_start_on_monday :
  ~ (map snd (App.resample_W_MON [Sample.sunday; Sample.lunch]) =
     map snd (SpecWords.weeks_starting_monday [Sample.sunday; Sample.lunch])).
Proof. vm_compute. discriminate. Qed.

Lemma weekly_bins_example :
  App.resample_W_MON [Sample.sunday; Sample.lunch]
    = [(738900, App.sum_amount [Sample.lunch]); (738907, App.sum_amount [Sample.sunday])].
Proof. reflexivity. Qed.

Lemma render_dashboard_charts tf dr r0 rest d :
  App.render_dashboard tf dr r0 rest = Ok d ->
  App.monthly d = App.resample_M (App.between (App.start d) (App.end_ d) (r0 :: rest)) /\
  App.weekly_chart d =
    App.tail 12 (App.resample_W_MON (App.between (App.start d) (App.end_ d) (r0 :: rest))).
Proof.
  unfold App.render_dashboard.
  destruct (App.resolve_timeframe tf dr r0 rest) as [[lo hi]|e]; cbn [bind];
    [|discriminate].
  intros E. injection E as <-. cbn. auto.
Qed.

(** ** The text search on a term without operators *)

Lemma compile_plain term : SpecWords.all_plain term = true ->
  App.compile term = Ok (map App.Lit (list_ascii_of_string term)).
Proof.
  induction term as [|c term IH]; cbn [App.compile SpecWords.all_plain list_ascii_of_string map];
    [reflexivity|].
  unfold SpecWords.plain. rewrite !andb_true_iff, !negb_true_iff. intros [[Hd Ho] Hp].
  rewrite Hd, Ho, (IH Hp). reflexivity.
Qed.

Lemma match_here_lit term : forall s,
  App.match_here (map App.Lit (list_ascii_of_string term)) s = true <->
  exists post, SpecWords.lower_string s = (SpecWords.lower_string term ++ post)%string.
Proof.
  induction term as [|c term IH]; intros s; cbn.
  - split; [intros _; now exists (SpecWords.lower_string s)|reflexivity].
  - destruct s as [|x s]; cbn.
    + split; [discriminate|intros (post & E); discriminate].
    + rewrite andb_true_iff, Ascii.eqb_eq, IH. split.
      * intros (Ec & post & E). exists post. now rewrite Ec, E.
      * intros (post & E). injection E as Ec E. split; [auto|now exists post].
Qed.

Lemma re_search_lit term : forall s,
  App.re_search (map App.Lit (list_ascii_of_string term)) s = true <->
  SpecWords.contains_ci term s.
Proof.
  unfold SpecWords.contains_ci. induction s as [|x s IH].
  - cbn [App.re_search]. rewrite orb_false_r, match_here_lit. split.
    + intros (post & E). now exists EmptyString, post.
    + intros (pre & post & E). destruct pre; [now exists post|discriminate].
  - cbn [App.re_search]. rewrite orb_true_iff, match_here_lit, IH. split.
    + intros [(post & E)|(pre & post & E)].
      * now exists EmptyString, post.
      * exists (String (App.lower x) pre), post. cbn. now rewrite E.
    + intros (pre & post & E). destruct pre as [|p pre].
      * left. now exists post.
      * right. cbn in E. injection E as _ E. now exists pre, post.
Qed.

Lemma select_map {A : Type} (f : A -> bool) (g : A -> string) (h : string -> bool)
    (l : list A) :
  App.select l (map h (map g l)) = filter (fun x => h (g x)) l.
Proof.
  induction l as [|x l IH]; cbn; [reflexivity|]. now rewrite IH.
Qed.

(** What the search keeps, for a term of ordinary characters: the rows
    whose notes, read through [astype(str)], contain the term without
    regard to case.  A row without notes is read as the text [None]. *)
Lemma text_search_filter_plain term df :
  term <> EmptyString -> SpecWords.all_plain term = true ->
  exists kept,
    App.text_search_filter term df = Ok kept /\
    forall r, In r kept <->
              In r df /\ SpecWords.contains_ci term (App.astype_str (Frame.notes r)).
Proof.
  intros Hne Hp. unfold App.text_search_filter, App.str_contains.
  destruct term as [|c term]; [congruence|].
  rewrite (compile_plain _ Hp). cbn [bind].
  eexists. split; [reflexivity|]. intros r.
  rewrite (select_map (fun _ => true)), filter_In, re_search_lit. tauto.
Qed.

(** ** Values of the calendar on known days *)

Example toordinal_2024_01_15 : Calendar.toordinal Sample.jan_15 = 738900.
Proof. reflexivity. Qed.

Example toordinal_2024_06_15 : Calendar.toordinal Sample.jun_15 = 739052.
Proof. reflexivity. Qed.

Example weekday_2024_01_15 : Calendar.weekday_of_ordinal 738900 = 0.
Proof. reflexivity. Qed.

Example strftime_2024_01_15 :
  Calendar.strftime_ymd Sample.jan_15 = "2024-01-15"%string.
Proof. reflexivity. Qed.

Example max_ordinal_is_9999_12_31 :
  Calendar.toordinal (Calendar.mkDate 9999 12 31) = Calendar.max_ordinal.
Proof. reflexivity. Qed.

(** ** Every store the pages build holds canonical dates *)

Lemma populated_not_none db : Db.populated db -> db <> None.
Proof.
  induction 1 as [|db now amount category date_str notes db' Hp IH Hok Hadd].
  - discriminate.
  - unfold Db.add_expense in Hadd. destruct db; [|discriminate].
    injection Hadd as <-. discriminate.
Qed.

Lemma populated_init_db db :
  db = None \/ Db.populated db -> Db.populated (Db.init_db db).
Proof.
  intros [->|H]; [constructor|].
  pose proof (populated_not_none db H). destruct db; [exact H|congruence].
Qed.

Lemma demo_loop_populated today draws : forall db,
  Db.populated db ->
  Forall (fun w => 1 <= today - Db.days_back w <= Calendar.max_ordinal) draws ->
  exists db', Db.demo_loop today draws db = Ok db' /\ Db.populated db'.
Proof.
  induction draws as [|w rest IH]; intros db Hp Hd.
  - exists db. split; [reflexivity|exact Hp].
  - inversion Hd as [|? ? Hw Hrest]; subst.
    cbn [Db.demo_loop].
    destruct (Db.add_expense (Db.demo_now w) (Db.demo_amount w) (Db.demo_category w)
                (Db.DateStr (Calendar.strftime_ymd
                               (Calendar.ord2ymd (today - Db.days_back w))))
                (Some "Demo expense"%string) db) as [db1|e] eqn:E.
    + cbn [bind]. apply IH; [|exact Hrest].
      eapply Db.populated_add; [exact Hp| |exact E].
      cbn. apply is_iso_strftime. now apply CalendarFacts.ord2ymd_valid.
    + exfalso. pose proof (populated_not_none db Hp).
      unfold Db.add_expense in E. destruct db; [discriminate|congruence].
Qed.

Lemma Forall_firstn {A : Type} (P : A -> Prop) (n : nat) (l : list A) :
  Forall P l -> Forall P (firstn n l).
Proof.
  intros H. rewrite Forall_forall in *. intros x Hx. apply H.
  rewrite <- (firstn_skipn n l). apply in_or_app. now left.
Qed.

Lemma app_populated (i : App.inputs) (w : App.world) :
  App.inputs_ok i ->
  App.store w = None \/ Db.populated (App.store w) ->
  Db.populated (App.store (snd (App.app i w))).
Proof.
  intros [Hdate Hdraws] Hw.
  pose proof (populated_init_db _ Hw) as Hp.
  unfold App.app, App.mbind, App.db_init_db, App.db_fetch_expenses, App.log.
  step_world.
  destruct (Db.fetch_expenses (Db.init_db (App.store w))) as [df|e];
    step_world; [|exact Hp].
  destruct (App.page i).
  - destruct df as [|r0 rest]; step_world; [exact Hp|].
    unfold App.lift, App.emit.
    destruct (App.render_dashboard _ _ _ _); step_world; exact Hp.
  - destruct (App.submitted i); [|exact Hp].
    unfold App.add_expense_submit.
    destruct (Qle_bool (App.amount i) 0); step_world; [exact Hp|].
    unfold App.db_add_expense, App.mbind, App.log. step_world.
    destruct (Db.add_expense _ _ _ _ _ (Db.init_db (App.store w))) as [db'|e] eqn:E;
      step_world; [|exact Hp].
    assert (Db.populated db').
    { eapply Db.populated_add; [exact Hp| |exact E]. exact Hdate. }
    destruct (Db.fetch_expenses db'); step_world; assumption.
  - destruct df as [|r0 rest]; step_world; [exact Hp|].
    unfold App.lift, App.emit.
    destruct (App.view_filtered _ _ _ _); step_world; exact Hp.
  - destruct (App.demo_button i); step_world; [|exact Hp].
    unfold App.db_add_demo_data, App.mbind, App.log. step_world.
    unfold Db.add_demo_data.
    destruct (demo_loop_populated (App.today i) (firstn 60 (App.draws i))
                (Db.init_db (Db.init_db (App.store w)))) as (db' & E & Hp').
    + apply populated_init_db. now right.
    + now apply Forall_firstn.
    + rewrite E. step_world. exact Hp'.
Qed.

Lemma session_populated (runs : list App.inputs) : forall (w : App.world),
  Forall App.inputs_ok runs ->
  App.store w = None \/ Db.populated (App.store w) ->
  App.store (App.session runs w) = None \/
  Db.populated (App.store (App.session runs w)).
Proof.
  induction runs as [|i rest IH]; intros w Hall Hw; cbn [App.session]; [exact Hw|].
  inversion Hall; subst. apply IH; [assumption|]. right. now apply app_populated.
Qed.


Lemma rows_never_updated_or_deleted_witness :
  nth_error (Db.rows_of (App.store (App.session [Sample.zero_form] Sample.stored_world))) 0
  = nth_error (Db.rows Sample.tie_table) 0.
Proof.
  destruct rows_never_updated_or_deleted as (_ & _ & H & _).
  apply (H [Sample.zero_form] Sample.stored_world 0%nat). reflexivity.
Defined.

(** A text outside the contract is stored as it comes, and then the order
    of the texts is not the order of the days. *)
Lemma add_expense_keeps_text_as_given :
  Db.add_expense "2024-01-15 12:00:00" 50 "Food" (Db.DateStr "2024-1-5") None
                 (Db.init_db None)
    = Ok (Some (Db.mkTable
                  [Table.mkRow 1 50 "Food" "2024-1-5" None "2024-01-15 12:00:00"] 1)) /\
  String.compare "2024-1-5" "2024-01-10" = Gt.
Proof. split; reflexivity. Qed.

(* ================================================================== *)
(** * Further properties of the two files *)
(* ================================================================== *)

(** ** The ids handed out *)

Lemma zrange_snoc lo n : App.zrange lo (S n) = App.zrange lo n ++ [lo + Z.of_nat n].
Proof.
  unfold App.zrange. rewrite seq_S, map_app. reflexivity.
Qed.

Lemma zrange_In lo n x : In x (App.zrange lo n) <-> lo <= x < lo + Z.of_nat n.
Proof.
  unfold App.zrange. rewrite in_map_iff. split.
  - intros (i & <- & Hi). apply in_seq in Hi. lia.
  - intros H. exists (Z.to_nat (x - lo)). split; [lia|]. apply in_seq. lia.
Qed.

Lemma zrange_NoDup lo n : NoDup (App.zrange lo n).
Proof.
  induction n as [|n IH]; [constructor|].
  rewrite zrange_snoc. apply NoDup_app; [exact IH|repeat constructor; intros []|].
  intros x Hx [<-|[]]. apply zrange_In in Hx. lia.
Qed.

(** The invariant of the AUTOINCREMENT key: the ids are 1, 2, ..., n in
    the order of insertion and the counter stands at n. *)
Lemma ids_add_expense now amount category date_str notes t db' :
  map Table.id (Db.rows t) = App.zrange 1 (List.length (Db.rows t)) ->
  Db.seq t = Z.of_nat (List.length (Db.rows t)) ->
  Db.add_expense now amount category date_str notes (Some t) = Ok db' ->
  exists t', db' = Some t' /\
    map Table.id (Db.rows t') = App.zrange 1 (List.length (Db.rows t')) /\
    Db.seq t' = Z.of_nat (List.length (Db.rows t')).
Proof.
  intros Hids Hseq E. unfold Db.add_expense in E. injection E as <-.
  eexists. split; [reflexivity|]. cbn [Db.rows Db.seq].
  rewrite length_app, map_app, Nat.add_1_r, zrange_snoc, Hids, Hseq.
  cbn [map Table.id List.length]. split; [|lia]. do 2 f_equal. lia.
Qed.

Lemma ids_demo_loop today draws : forall t,
  map Table.id (Db.rows t) = App.zrange 1 (List.length (Db.rows t)) ->
  Db.seq t = Z.of_nat (List.length (Db.rows t)) ->
  exists t', Db.demo_loop today draws (Some t) = Ok (Some t') /\
    map Table.id (Db.rows t') = App.zrange 1 (List.length (Db.rows t')) /\
    Db.seq t' = Z.of_nat (List.length (Db.rows t')).
Proof.
  induction draws as [|w rest IH]; intros t Hids Hseq.
  - exists t. auto.
  - cbn [Db.demo_loop].
    destruct (Db.add_expense (Db.demo_now w) (Db.demo_amount w) (Db.demo_category w)
                (Db.DateStr (Calendar.strftime_ymd
                               (Calendar.ord2ymd (today - Db.days_back w))))
                (Some "Demo expense"%string) (Some t)) as [db1|e] eqn:E;
      [|discriminate].
    destruct (ids_add_expense _ _ _ _ _ _ _ Hids Hseq E) as (t1 & -> & H1 & H2).
    cbn [bind]. now apply IH.
Qed.

Lemma ids_run (o : Db.operation) (db : Db.database) :
  (forall t, db = Some t ->
     map Table.id (Db.rows t) = App.zrange 1 (List.length (Db.rows t)) /\
     Db.seq t = Z.of_nat (List.length (Db.rows t))) ->
  forall t', Db.run o db = Some t' ->
    map Table.id (Db.rows t') = App.zrange 1 (List.length (Db.rows t')) /\
    Db.seq t' = Z.of_nat (List.length (Db.rows t')).
Proof.
  intros H t' E.
  assert (Hinit : forall t0, Db.init_db db = Some t0 ->
            map Table.id (Db.rows t0) = App.zrange 1 (List.length (Db.rows t0)) /\
            Db.seq t0 = Z.of_nat (List.length (Db.rows t0))).
  { intros t0 E0. destruct db as [t|]; cbn in E0; injection E0 as <-.
    - now apply H.
    - split; reflexivity. }
  destruct o as [|now amount category date_str notes| |today draws]; cbn [Db.run] in E.
  - now apply Hinit.
  - destruct db as [t|]; [|discriminate].
    destruct (H t eq_refl) as (Hids & Hseq).
    destruct (Db.add_expense now amount category date_str notes (Some t)) as [db'|e] eqn:Ea.
    + destruct (ids_add_expense _ _ _ _ _ _ _ Hids Hseq Ea) as (t1 & -> & H1 & H2).
      injection E as <-. auto.
    + injection E as <-. auto.
  - now apply H.
  - unfold Db.add_demo_data in E.
    destruct (Db.init_db db) as [t0|] eqn:E0; [|destruct db; discriminate].
    destruct (Hinit t0 eq_refl) as (Hids & Hseq).
    destruct (ids_demo_loop today (firstn 60 draws) t0 Hids Hseq) as (t1 & E1 & H1 & H2).
    rewrite E1 in E. injection E as <-. auto.
Qed.

(** X2. Whatever operations of the storage layer are run on a new file,
    the ids of the rows are 1, 2, ..., n in the order of insertion: no
    two rows share an id, a row inserted later has the greater id, and
    the AUTOINCREMENT counter stands at the number of rows. *)
Theorem ids_are_consecutive :
  forall (ops : list Db.operation),
    let db := fold_left (fun db o => Db.run o db) ops None in
    let ids := map Table.id (Db.rows_of db) in
    ids = App.zrange 1 (List.length ids) /\
    NoDup ids /\
    (forall i j a b, (i < j)%nat -> nth_error ids i = Some a ->
                     nth_error ids j = Some b -> a < b) /\
    (forall t, db = Some t -> Db.seq t = Z.of_nat (List.length ids)).
Proof.
  intros ops.
  assert (Inv : forall ops db0,
            (forall t, db0 = Some t ->
               map Table.id (Db.rows t) = App.zrange 1 (List.length (Db.rows t)) /\
               Db.seq t = Z.of_nat (List.length (Db.rows t))) ->
            forall t, fold_left (fun db o => Db.run o db) ops db0 = Some t ->
               map Table.id (Db.rows t) = App.zrange 1 (List.length (Db.rows t)) /\
               Db.seq t = Z.of_nat (List.length (Db.rows t))).
  { clear ops. induction ops as [|o ops IH]; intros db0 H0 t E; cbn in E.
    - now apply H0.
    - apply (IH (Db.run o db0)); [|exact E]. now apply ids_run. }
  cbv zeta.
  destruct (fold_left (fun db o => Db.run o db) ops None) as [t|] eqn:E;
    cbn [Db.rows_of].
  - destruct (Inv ops None ltac:(discriminate) t E) as (Hids & Hseq).
    rewrite length_map.
    split; [exact Hids|]. split; [rewrite Hids; apply zrange_NoDup|].
    split; [|intros t0 [= <-]; exact Hseq].
    intros i j a b Hij Ea Eb. rewrite Hids in Ea, Eb.
    assert (Hi : (i < List.length (Db.rows t))%nat).
    { rewrite <- (zrange_length 1), <- nth_error_Some. congruence. }
    assert (Hj : (j < List.length (Db.rows t))%nat).
    { rewrite <- (zrange_length 1), <- nth_error_Some. congruence. }
    rewrite zrange_nth in Ea, Eb by assumption.
    assert (a = 1 + Z.of_nat i) by congruence.
    assert (b = 1 + Z.of_nat j) by congruence. lia.
  - cbn. split; [reflexivity|]. split; [constructor|].
    split; [intros [|i] j a b _ Ea; discriminate|discriminate].
Qed.

Lemma ids_are_consecutive_witness :
  map Table.id
      (Db.rows_of
         (fold_left (fun db o => Db.run o db)
            [Db.op_init_db;
             Db.op_add_expense "2024-01-15 12:00:00" 50 "Food"
               (Db.DateObj Sample.jan_15) (Some "lunch"%string);
             Db.op_fetch_expenses;
             Db.op_add_expense "2024-01-15 12:00:05" 20 "Food"
               (Db.DateObj Sample.jan_15) None]
            None))
  = App.zrange 1 2.
Proof.
  destruct (ids_are_consecutive
              [Db.op_init_db;
               Db.op_add_expense "2024-01-15 12:00:00" 50 "Food"
                 (Db.DateObj Sample.jan_15) (Some "lunch"%string);
               Db.op_fetch_expenses;
               Db.op_add_expense "2024-01-15 12:00:05" 20 "Food"
                 (Db.DateObj Sample.jan_15) None]) as (H & _).
  exact H.
Defined.

(** ** Insert, then fetch *)


Lemma to_datetime_strftime d : Calendar.valid_date d = true ->
  Db.to_datetime (Calendar.strftime_ymd d) = Ok (Calendar.toordinal d).
Proof.
  intros V. unfold Db.to_datetime. now rewrite CalendarFacts.parse_strftime.
Qed.

Lemma fetch_expenses_rows t :
  Forall (fun r => Calendar.is_iso (Table.date r) = true) (Db.rows t) ->
  exists df sorted,
    Db.fetch_expenses (Some t) = Ok df /\
    Permutation (Db.rows t) sorted /\
    Forall2 (fun r f => Db.to_frame_row r = Ok f) sorted df.
Proof.
  intros Hiso. pose proof (select_all_ordered_perm t) as Hperm.
  assert (Hiso' : Forall (fun r => Calendar.is_iso (Table.date r) = true)
                         (Db.select_all_ordered t)).
  { rewrite Forall_forall in *. intros r Hr. apply Hiso.
    apply (Permutation_in _ (Permutation_sym Hperm)). exact Hr. }
  destruct (mapM_to_frame_row _ Hiso') as (df & E & F).
  exists df, (Db.select_all_ordered t). rewrite fetch_expenses_eq. auto.
Qed.




(** ** [init_db] *)



(** ** [add_demo_data] *)

Lemma demo_loop_rows_detail today draws : forall t,
  exists t' added,
    Db.demo_loop today draws (Some t) = Ok (Some t') /\
    Db.rows t' = Db.rows t ++ added /\
    Forall2 (fun w r =>
               Table.amount r = Db.demo_amount w /\
               Table.category r = Db.demo_category w /\
               Table.date r = Calendar.strftime_ymd
                                (Calendar.ord2ymd (today - Db.days_back w)) /\
               Table.notes r = Some "Demo expense"%string /\
               Table.created_at r = Db.demo_now w)
            draws added.
Proof.
  induction draws as [|w rest IH]; intros t.
  - exists t, []. cbn. rewrite app_nil_r. auto.
  - cbn [Db.demo_loop Db.add_expense bind].
    match goal with |- context [Db.demo_loop today rest (Some ?t1)] =>
      destruct (IH t1) as (t' & added & E & R & F)
    end.
    exists t'. eexists (_ :: added). split; [exact E|]. split.
    + rewrite R. cbn [Db.rows]. rewrite <- app_assoc. reflexivity.
    + constructor; [|exact F]. cbn. auto.
Qed.

(** X4. Given the outcomes of at least 60 turns, [add_demo_data] does
    not raise, creates the table when it is missing, keeps the rows it
    found and appends exactly 60; the k-th new row carries the amount,
    category and timestamp of the k-th turn, the date of [today] less the
    days drawn in the form [%Y-%m-%d], and the note "Demo expense". *)
Theorem add_demo_data_appends_60 :
  forall (today : Z) (draws : list Db.draw) (db : Db.database),
    (60 <= List.length draws)%nat ->
    exists t' added,
      Db.add_demo_data today draws db = Ok (Some t') /\
      Db.rows t' = Db.rows_of db ++ added /\
      List.length added = 60%nat /\
      (forall k w, (k < 60)%nat -> nth_error draws k = Some w ->
         exists r, nth_error added k = Some r /\
                   Table.amount r = Db.demo_amount w /\
                   Table.category r = Db.demo_category w /\
                   Table.date r = Calendar.strftime_ymd
                                    (Calendar.ord2ymd (today - Db.days_back w)) /\
                   Table.notes r = Some "Demo expense"%string /\
                   Table.created_at r = Db.demo_now w).
Proof.
  intros today draws db Hlen. unfold Db.add_demo_data.
  assert (E0 : exists t0, Db.init_db db = Some t0 /\ Db.rows t0 = Db.rows_of db).
  { destruct db as [t|]; eexists; split; reflexivity. }
  destruct E0 as (t0 & -> & R0).
  destruct (demo_loop_rows_detail today (firstn 60 draws) t0) as (t' & added & E & R & F).
  exists t', added. split; [exact E|]. split; [now rewrite R, R0|].
  assert (L : List.length added = 60%nat).
  { rewrite <- (Forall2_length F), length_firstn. lia. }
  split; [exact L|].
  intros k w Hk Hw.
  assert (Hw' : nth_error (firstn 60 draws) k = Some w).
  { rewrite nth_error_firstn. destruct (Nat.ltb_spec k 60); [exact Hw|lia]. }
  destruct (nth_error added k) as [r|] eqn:Er.
  - exists r. split; [reflexivity|].
    clear - F Hw' Er. revert k Hw' Er.
    induction F as [|w0 r0 l1 l2 H0 F IH]; intros [|k] Hw' Er; cbn in *; try discriminate.
    + injection Hw' as <-. injection Er as <-. exact H0.
    + eauto.
  - apply nth_error_None in Er. lia.
Qed.

(** Sixty draws with the same outcome. *)
Lemma add_demo_data_appends_60_witness :
  exists t' added,
    Db.add_demo_data 738900
      (repeat (Db.mkDraw 10 25 "Food" "2024-01-15 12:00:00") 60) None = Ok (Some t') /\
    Db.rows t' = added /\ List.length added = 60%nat.
Proof.
  destruct (add_demo_data_appends_60 738900
              (repeat (Db.mkDraw 10 25 "Food" "2024-01-15 12:00:00") 60) None)
    as (t' & added & E & R & L & _).
  - rewrite repeat_length. apply le_n.
  - exists t', added. auto.
Defined.

Lemma to_datetime_of_ordinal n : 1 <= n <= Calendar.max_ordinal ->
  Db.to_datetime (Calendar.strftime_ymd (Calendar.ord2ymd n)) = Ok n.
Proof.
  intros Hn. rewrite to_datetime_strftime by now apply CalendarFacts.ord2ymd_valid.
  f_equal. apply CalendarFacts.ord2ymd_roundtrip. lia.
Qed.

(** X5. When each turn draws a number of days from 0 to 365 and a
    category of the fixed list, and [today] is a day a year or more into
    the calendar, every row [add_demo_data] appends has a category of the
    fixed list and a date that [to_datetime] reads back as a day from
    [today - 365] to [today]. *)
Theorem add_demo_data_within_a_year :
  forall (today : Z) (draws : list Db.draw) (db : Db.database),
    366 <= today <= Calendar.max_ordinal ->
    Forall (fun w => 0 <= Db.days_back w <= 365 /\
                     In (Db.demo_category w) Db.categories) draws ->
    exists t' added,
      Db.add_demo_data today draws db = Ok (Some t') /\
      Db.rows t' = Db.rows_of db ++ added /\
      forall r, In r added ->
        In (Table.category r) Db.categories /\
        exists ts, Db.to_datetime (Table.date r) = Ok ts /\
                   today - 365 <= ts <= today.
Proof.
  intros today draws db Ht Hd. unfold Db.add_demo_data.
  assert (E0 : exists t0, Db.init_db db = Some t0 /\ Db.rows t0 = Db.rows_of db).
  { destruct db as [t|]; eexists; split; reflexivity. }
  destruct E0 as (t0 & -> & R0).
  destruct (demo_loop_rows_detail today (firstn 60 draws) t0) as (t' & added & E & R & F).
  exists t', added. split; [exact E|]. split; [now rewrite R, R0|].
  assert (Hd' : Forall (fun w => 0 <= Db.days_back w <= 365 /\
                                 In (Db.demo_category w) Db.categories)
                       (firstn 60 draws)) by now apply Forall_firstn.
  clear - F Hd' Ht. induction F as [|w r l1 l2 H0 F IH]; intros r' Hr; [destruct Hr|].
  inversion Hd' as [|? ? (Hb & Hc) Hrest]; subst.
  destruct Hr as [<-|Hr]; [|now apply IH].
  destruct H0 as (_ & Ec & Ed & _). split; [now rewrite Ec|].
  exists (today - Db.days_back w). rewrite Ed. split; [|lia].
  apply to_datetime_of_ordinal. lia.
Qed.

Lemma add_demo_data_within_a_year_witness :
  exists t' added,
    Db.add_demo_data 738900
      (repeat (Db.mkDraw 10 25 "Food" "2024-01-15 12:00:00") 60) None = Ok (Some t') /\
    Db.rows t' = added.
Proof.
  destruct (add_demo_data_within_a_year 738900
              (repeat (Db.mkDraw 10 25 "Food" "2024-01-15 12:00:00") 60) None)
    as (t' & added & E & R & _).
  - unfold Calendar.max_ordinal. lia.
  - apply Forall_forall. intros w Hw. apply repeat_spec in Hw. subst w. cbn.
    split; [lia|]. right. left. reflexivity.
  - exists t', added. auto.
Defined.

(** ** Runs of the script *)

Lemma populated_fetch db : Db.populated db -> exists df, Db.fetch_expenses db = Ok df.
Proof.
  intros Hp. pose proof (populated_rows_iso db Hp) as Hiso.
  pose proof (populated_not_none db Hp). destruct db as [t|]; [|congruence].
  destruct (fetch_expenses_rows t Hiso) as (df & _ & E & _). eauto.
Qed.

(** X6. A submission of the Add Expense form with an amount above
    zero, on a store that is new or was built within the contract: the
    run returns normally after the calls init, fetch, add, fetch; the
    success message is what it adds to the screen; the store holds the
    rows it had and one new row with the amount, category and date of the
    form, the notes of the form as a text (never a missing value) and
    the timestamp of the insert. *)
Theorem add_expense_page_stores_the_form :
  forall (i : App.inputs) (w : App.world),
    App.page i = App.Add_Expense ->
    App.submitted i = true ->
    (0 < App.amount i)%Q ->
    Calendar.valid_date (App.date_input i) = true ->
    App.store w = None \/ Db.populated (App.store w) ->
    exists t',
      App.app i w =
        (Ok tt,
         App.mkWorld (Some t')
           (App.calls w ++
              [App.call_init_db; App.call_fetch_expenses;
               App.call_add_expense (App.amount i) (App.category i)
                 (Db.DateObj (App.date_input i)) (Some (App.notes i));
               App.call_fetch_expenses])
           (App.screen w ++
              [App.st_success_added (App.amount i) (App.category i) (App.date_input i)])) /\
      exists id,
        Db.rows t' =
          Db.rows_of (App.store w) ++
            [Table.mkRow id (App.amount i) (App.category i)
               (Calendar.strftime_ymd (App.date_input i)) (Some (App.notes i)) (App.now i)].
Proof.
  intros i w Hpage Hsub Hpos Hdate Hw.
  pose proof (populated_init_db _ Hw) as Hp.
  destruct (populated_fetch _ Hp) as (df & Ef).
  assert (Hq : Qle_bool (App.amount i) 0 = false).
  { apply not_true_is_false. intros H. apply Qle_bool_iff in H.
    apply (Qlt_not_le _ _ Hpos H). }
  pose proof (populated_not_none _ Hp) as Hnn.
  destruct (Db.init_db (App.store w)) as [t0|] eqn:E0; [|congruence].
  set (row := Table.mkRow (Db.seq t0 + 1) (App.amount i) (App.category i)
                (Calendar.strftime_ymd (App.date_input i)) (Some (App.notes i)) (App.now i)).
  set (t' := Db.mkTable (Db.rows t0 ++ [row]) (Db.seq t0 + 1)).
  assert (Ea : Db.add_expense (App.now i) (App.amount i) (App.category i)
                 (Db.DateObj (App.date_input i)) (Some (App.notes i)) (Some t0)
               = Ok (Some t')) by reflexivity.
  assert (Hp' : Db.populated (Some t')).
  { eapply Db.populated_add; [exact Hp| |exact Ea]. exact Hdate. }
  destruct (populated_fetch _ Hp') as (df' & Ef').
  exists t'. split.
  - unfold App.app, App.mbind, App.db_init_db, App.db_fetch_expenses, App.log.
    step_world. rewrite E0, Ef. step_world. rewrite Hpage, Hsub.
    unfold App.add_expense_submit. rewrite Hq.
    unfold App.db_add_expense, App.db_fetch_expenses, App.mbind, App.log, App.emit,
      App.ret.
    step_world. rewrite Ea. step_world. rewrite Ef'. step_world.
    rewrite <- !app_assoc. reflexivity.
  - exists (Db.seq t0 + 1). cbn [Db.rows t'].
    rewrite <- (init_db_rows (App.store w)), E0. reflexivity.
Qed.

Lemma add_expense_page_stores_the_form_witness :
  exists t', fst (App.app
                    (App.mkInputs App.Add_Expense 50 Sample.jan_15 "Food" "" true
                       [] [] "" App.Last_30_days [] false
                       "2024-01-15 12:00:00" 738900 [])
                    Sample.empty_world) = Ok tt /\
             List.length (Db.rows t') = 1%nat.
Proof.
  destruct (add_expense_page_stores_the_form
              (App.mkInputs App.Add_Expense 50 Sample.jan_15 "Food" "" true
                 [] [] "" App.Last_30_days [] false
                 "2024-01-15 12:00:00" 738900 [])
              Sample.empty_world) as (t' & E & id & R); try reflexivity.
  - left. reflexivity.
  - exists t'. rewrite E, R. split; reflexivity.
Defined.

(** X7. On a store without rows (new, or with an empty table) the
    Dashboard page and the View & Export page return normally, show their
    one informational message and nothing else, and leave the store with
    its table created and no row. *)
Theorem pages_on_an_empty_store :
  forall (i : App.inputs) (w : App.world),
    Db.rows_of (App.store w) = [] ->
    (App.page i = App.Dashboard ->
       App.app i w =
         (Ok tt,
          App.mkWorld (Db.init_db (App.store w))
            (App.calls w ++ [App.call_init_db; App.call_fetch_expenses])
            (App.screen w ++
               [App.st_info "No data — add some expenses to see analytics."]))) /\
    (App.page i = App.View_Export ->
       App.app i w =
         (Ok tt,
          App.mkWorld (Db.init_db (App.store w))
            (App.calls w ++ [App.call_init_db; App.call_fetch_expenses])
            (App.screen w ++
               [App.st_info
                  "No expenses recorded yet. Add one on the 'Add Expense' page."]))).
Proof.
  intros i w Hrows.
  pose proof (fetch_expenses_empty _ Hrows) as Ef.
  split; intros Hpage;
    unfold App.app, App.mbind, App.db_init_db, App.db_fetch_expenses, App.log;
    step_world; rewrite Ef; step_world; rewrite Hpage; unfold App.emit; step_world;
    rewrite <- !app_assoc; reflexivity.
Qed.

Lemma pages_on_an_empty_store_witness :
  App.screen
    (snd (App.app
            (App.mkInputs App.Dashboard 0 Sample.jan_15 "" "" false
               [] [] "" App.Last_30_days [] false "" 738900 [])
            Sample.empty_world))
  = [App.st_info "No data — add some expenses to see analytics."].
Proof.
  destruct (pages_on_an_empty_store
              (App.mkInputs App.Dashboard 0 Sample.jan_15 "" "" false
                 [] [] "" App.Last_30_days [] false "" 738900 [])
              Sample.empty_world eq_refl) as (H & _).
  rewrite (H eq_refl). reflexivity.
Defined.

(** X10. On a store with rows, a date widget that does not hold two
    dates ends the run with an exception after init and fetch, with
    nothing put on the screen and the rows untouched: View & Export
    raises ValueError when [date_range] has not exactly two components,
    the Dashboard under "Custom range" raises IndexError when [dr] has
    fewer than two. *)
Theorem incomplete_range_ends_the_run :
  forall (i : App.inputs) (w : App.world) (r0 : Frame.row) (rest : list Frame.row),
    Db.fetch_expenses (Db.init_db (App.store w)) = Ok (r0 :: rest) ->
    let halted e :=
      App.app i w =
        (Raise e,
         App.mkWorld (Db.init_db (App.store w))
           (App.calls w ++ [App.call_init_db; App.call_fetch_expenses])
           (App.screen w)) in
    (App.page i = App.View_Export ->
     List.length (App.date_range i) <> 2%nat -> halted ValueError) /\
    (App.page i = App.Dashboard ->
     App.timeframe_choice i = App.Custom_range ->
     (List.length (App.dr i) < 2)%nat -> halted IndexError).
Proof.
  intros i w r0 rest Ef halted. subst halted. cbv beta. split.
  - intros Hpage Hlen.
    unfold App.app, App.mbind, App.db_init_db, App.db_fetch_expenses, App.log.
    step_world. rewrite Ef. step_world. rewrite Hpage. unfold App.lift.
    assert (Ev : App.view_filtered (r0 :: rest) (App.date_range i)
                   (App.selected_cats i) (App.text_search i) = Raise ValueError).
    { unfold App.view_filtered, App.unpack2.
      destruct (App.date_range i) as [|a [|b [|c l]]]; cbn in Hlen; try reflexivity.
      congruence. }
    rewrite Ev. rewrite <- !app_assoc. reflexivity.
  - intros Hpage Htf Hlen.
    unfold App.app, App.mbind, App.db_init_db, App.db_fetch_expenses, App.log.
    step_world. rewrite Ef. step_world. rewrite Hpage. unfold App.lift.
    assert (Ev : App.render_dashboard (App.timeframe_choice i) (App.dr i) r0 rest
                 = Raise IndexError).
    { unfold App.render_dashboard, App.resolve_timeframe, App.tuple_item. rewrite Htf.
      destruct (App.dr i) as [|a [|b l]]; cbn in Hlen; try reflexivity. lia. }
    rewrite Ev. rewrite <- !app_assoc. reflexivity.
Qed.

Lemma incomplete_range_ends_the_run_witness :
  fst (App.app
         (App.mkInputs App.View_Export 0 Sample.jan_15 "" "" false
            [Sample.jan_1] [] "" App.Last_30_days [] false "" 738900 [])
         Sample.stored_world) = Raise ValueError.
Proof.
  destruct (incomplete_range_ends_the_run
              (App.mkInputs App.View_Export 0 Sample.jan_15 "" "" false
                 [Sample.jan_1] [] "" App.Last_30_days [] false "" 738900 [])
              Sample.stored_world
              (Frame.mkRow 1 50 "Food" 738900 (Some "lunch"%string) "2024-01-15 12:00:00")
              [Frame.mkRow 2 20 "Food" 738900 None "2024-01-15 12:00:00"]
              eq_refl) as (H & _).
  rewrite H; [reflexivity|reflexivity|discriminate].
Defined.

(** ** View & Export *)

Lemma insert_key_In c keys x :
  In x (Columns.insert_key c keys) <-> x = c \/ In x keys.
Proof.
  induction keys as [|k keys IH]; cbn; [intuition|].
  destruct (String.compare c k) eqn:E; cbn.
  - apply String.compare_eq_iff in E. subst. intuition.
  - intuition.
  - rewrite IH. intuition.
Qed.

Lemma unique_sorted_In col x : In x (Columns.unique_sorted col) <-> In x col.
Proof.
  unfold Columns.unique_sorted. induction col as [|c col IH]; cbn; [reflexivity|].
  rewrite insert_key_In, IH. intuition.
Qed.

Lemma filter_all {A : Type} (f : A -> bool) (l : list A) :
  (forall x, In x l -> f x = true) -> filter f l = l.
Proof.
  induction l as [|x l IH]; intros H; cbn; [reflexivity|].
  rewrite (H x (or_introl eq_refl)). f_equal. apply IH. intros y Hy. apply H. now right.
Qed.


(** X8. With the widgets of View & Export at their defaults (the range
    from the least to the greatest date, every category of the frame
    selected, no search term) the filtered frame is the whole frame, for
    a frame whose dates are day numbers of the calendar. *)
Theorem default_view_shows_every_row :
  forall (r0 : Frame.row) (rest : list Frame.row),
    let df := r0 :: rest in
    (forall r, In r df -> 1 <= Frame.date r <= Calendar.max_ordinal) ->
    App.view_filtered df (View.default_date_range r0 rest) (View.cats df) "" = Ok df.
Proof.
  intros r0 rest df Hrange.
  pose proof (date_max_spec r0 rest) as (Hmaxin & Hmax).
  pose proof (date_min_spec r0 rest) as (Hminin & Hmin).
  assert (Rmin : 1 <= App.date_min r0 rest).
  { apply in_map_iff in Hminin. destruct Hminin as (r & <- & Hr). now apply Hrange. }
  assert (Rmax : 1 <= App.date_max r0 rest).
  { apply in_map_iff in Hmaxin. destruct Hmaxin as (r & <- & Hr). now apply Hrange. }
  unfold App.view_filtered, View.default_date_range, App.unpack2. cbn [bind].
  unfold App.date_range_filter.
  rewrite !CalendarFacts.ord2ymd_roundtrip by assumption.
  rewrite filter_all.
  - unfold App.category_filter.
    destruct (View.cats df) as [|c cs] eqn:Ec.
    + reflexivity.
    + rewrite filter_all; [reflexivity|].
      intros r Hr. apply isin_In. rewrite <- Ec. unfold View.cats.
      apply unique_sorted_In. now apply in_map.
  - intros r Hr. apply andb_true_iff. rewrite !Z.leb_le. split; [now apply Hmin|now apply Hmax].
Qed.

Lemma default_view_shows_every_row_witness :
  App.view_filtered [Sample.rent; Sample.lunch]
    (View.default_date_range Sample.rent [Sample.lunch])
    (View.cats [Sample.rent; Sample.lunch]) ""
  = Ok [Sample.rent; Sample.lunch].
Proof.
  apply (default_view_shows_every_row Sample.rent [Sample.lunch]).
  intros r [<-|[<-|[]]]; vm_compute; split; discriminate.
Defined.




(** *** The table on display *)

Lemma StronglySorted_select {A : Type} (R : A -> A -> Prop) (l : list A) :
  StronglySorted R l -> forall mask, StronglySorted R (App.select l mask).
Proof.
  induction 1 as [|x l Hs IH Hx]; intros mask; [destruct mask; constructor|].
  destruct mask as [|b mask]; cbn [App.select]; [constructor|].
  destruct b; [|apply IH].
  constructor; [apply IH|].
  rewrite Forall_forall in *. intros y Hy. apply Hx.
  clear - Hy. revert mask Hy. induction l as [|z l IHl]; intros [|b mask] Hy;
    cbn in Hy; try contradiction.
  destruct b; [destruct Hy as [<-|Hy]; [now left|]|]; right; eapply IHl; eassumption.
Qed.

Lemma StronglySorted_filter {A : Type} (R : A -> A -> Prop) (f : A -> bool) (l : list A) :
  StronglySorted R l -> StronglySorted R (filter f l).
Proof.
  intros H. rewrite <- select_map_filter. now apply StronglySorted_select.
Qed.

Lemma sort_values_sorted_id (l : list Frame.row) :
  StronglySorted (fun a b => View.by_date_created_at_desc a b <> Gt) l ->
  View.sort_values l = l.
Proof.
  unfold View.sort_values. induction 1 as [|x l Hs IH Hx]; cbn; [reflexivity|].
  rewrite IH. destruct l as [|y l]; [reflexivity|]. cbn.
  inversion Hx as [|? ? Hxy _]; subst.
  destruct (View.by_date_created_at_desc x y); congruence.
Qed.

Lemma key_ge_display a b :
  Ordering.key_ge a b -> View.by_date_created_at_desc a b <> Gt.
Proof.
  unfold Ordering.key_ge, Ordering.text_ge, View.by_date_created_at_desc.
  intros [G|[E G]].
  - assert (L : (Frame.date b ?= Frame.date a) = Lt) by (apply Z.compare_lt_iff; lia).
    rewrite L. discriminate.
  - rewrite E, Z.compare_refl. intros C. apply G. now apply string_compare_gt_lt.
Qed.

Lemma fetched_frame_sorted t df :
  Forall (fun r => Calendar.is_iso (Table.date r) = true) (Db.rows t) ->
  Db.fetch_expenses (Some t) = Ok df ->
  StronglySorted (fun a b => View.by_date_created_at_desc a b <> Gt) df.
Proof.
  intros Hiso E. rewrite fetch_expenses_eq in E.
  pose proof (select_all_ordered_perm t) as Hperm.
  pose proof (select_all_ordered_sorted t) as Hsorted.
  assert (Hiso' : Forall (fun r => Calendar.is_iso (Table.date r) = true)
                         (Db.select_all_ordered t)).
  { rewrite Forall_forall in *. intros r Hr. apply Hiso.
    apply (Permutation_in _ (Permutation_sym Hperm)). exact Hr. }
  destruct (mapM_to_frame_row _ Hiso') as (df' & E' & F).
  assert (df' = df) by congruence. subst df'. clear E E' Hperm Hiso.
  induction F as [|r f l1 l2 Hrf F IH]; [constructor|].
  inversion Hsorted as [|? ? Hs Hall]; subst.
  inversion Hiso' as [|? ? Hir Hil]; subst.
  constructor; [now apply IH|].
  rewrite Forall_forall in *. intros f' Hf'.
  apply In_nth_error in Hf'. destruct Hf' as (k & Ek).
  destruct (Forall2_nth_error_r _ _ _ F k f' Ek) as (r' & Nk & Rk).
  apply nth_error_In in Nk.
  apply key_ge_display. apply (sorted_pair_key_ge r r'); auto.
Qed.

(** X11. On a table whose dates are canonical, the frame
    [fetch_expenses] returns is already in the order of the sort of line
    72, and so is whatever the filter block keeps of it: the sort for
    display returns its argument unchanged. *)
Theorem display_sort_keeps_the_fetched_order :
  forall (t : Db.table) (df kept : list Frame.row) (date_range : list Calendar.date)
         (selected_cats : list string) (text_search : string),
    Forall (fun r => Calendar.is_iso (Table.date r) = true) (Db.rows t) ->
    Db.fetch_expenses (Some t) = Ok df ->
    App.view_filtered df date_range selected_cats text_search = Ok kept ->
    View.sort_values kept = kept /\ View.sort_values df = df.
Proof.
  intros t df kept date_range sel term Hiso Ef Ev.
  pose proof (fetched_frame_sorted t df Hiso Ef) as Hs.
  split; [|now apply sort_values_sorted_id].
  apply sort_values_sorted_id.
  unfold App.view_filtered in Ev.
  destruct (App.unpack2 date_range) as [[s e]|x]; cbn [bind] in Ev; [|discriminate].
  assert (Hc : StronglySorted (fun a b => View.by_date_created_at_desc a b <> Gt)
                 (App.category_filter sel (App.date_range_filter s e df))).
  { unfold App.category_filter, App.date_range_filter.
    destruct sel; repeat apply StronglySorted_filter; exact Hs. }
  unfold App.text_search_filter in Ev. destruct term as [|c term].
  - injection Ev as <-. exact Hc.
  - destruct (App.str_contains _ _) as [mask|x]; cbn [bind] in Ev; [|discriminate].
    injection Ev as <-. now apply StronglySorted_select.
Qed.

Lemma display_sort_keeps_the_fetched_order_witness :
  exists df, Db.fetch_expenses (Some Sample.tie_table) = Ok df /\
             View.sort_values df = df.
Proof.
  eexists. split; [reflexivity|].
  eapply (display_sort_keeps_the_fetched_order Sample.tie_table _ _
            [Sample.jan_1; Sample.jan_31] [] "").
  - repeat constructor.
  - reflexivity.
  - reflexivity.
Defined.

(** ** Sums over buckets *)







Section Buckets.

Variable K : Type.
Variable eqb : K -> K -> bool.
Hypothesis eqb_spec : forall a b, eqb a b = true <-> a = b.
Variable idx : Frame.row -> K.





End Buckets.



(** ** The dashboard on the named timeframes *)

Lemma resample_M_length r0 rest :
  (forall r, In r (r0 :: rest) -> 1 <= Frame.date r <= Calendar.max_ordinal) ->
  (1 <= List.length (App.resample_M (r0 :: rest)))%nat.
Proof.
  intros Hrange.
  pose proof (date_max_spec r0 rest) as (Hmaxin & Hmax).
  pose proof (date_min_spec r0 rest) as (Hminin & Hmin).
  unfold App.resample_M. rewrite length_map, zrange_length.
  apply in_map_iff in Hminin. destruct Hminin as (rm & Em & Hrm).
  apply in_map_iff in Hmaxin. destruct Hmaxin as (rM & EM & HrM).
  pose proof (Hrange rm Hrm). pose proof (Hrange rM HrM). pose proof (Hmax rm Hrm).
  assert (App.month_index (App.date_min r0 rest) <= App.month_index (App.date_max r0 rest))
    by (apply month_index_mono; lia).
  lia.
Qed.

Lemma resample_W_MON_length r0 rest :
  (1 <= List.length (App.resample_W_MON (r0 :: rest)))%nat.
Proof.
  pose proof (date_max_spec r0 rest) as (_ & Hmax).
  pose proof (date_min_spec r0 rest) as (Hminin & _).
  unfold App.resample_W_MON. rewrite length_map, zrange_length.
  apply in_map_iff in Hminin. destruct Hminin as (rm & Em & Hrm).
  pose proof (Hmax rm Hrm) as H. rewrite Em in H.
  pose proof (week_label_mono _ _ H).
  assert (0 <= (App.week_label (App.date_max r0 rest)
                - App.week_label (App.date_min r0 rest)) / 7)
    by (apply Z.div_pos; lia).
  lia.
Qed.

(** X12. For a frame that is not empty, with dates that are day numbers
    of the calendar, and a named timeframe: the dashboard is computed
    without exception, its range is not empty ([start <= end]), at
    least one record falls in it, the monthly chart has at least one
    bucket and the weekly chart between 1 and 12; under "All time" the
    total is the sum of all amounts and the count the number of rows;
    under "Last 30 days" the total and the "Last 30 days" metric are the
    same number. *)
Theorem named_timeframe_dashboard :
  forall (tf : App.timeframe) (dr : list Calendar.date)
         (r0 : Frame.row) (rest : list Frame.row),
    let df := r0 :: rest in
    tf <> App.Custom_range ->
    (forall r, In r df -> 1 <= Frame.date r <= Calendar.max_ordinal) ->
    exists d,
      App.render_dashboard tf dr r0 rest = Ok d /\
      App.start d <= App.end_ d /\
      (1 <= App.records d)%nat /\
      (1 <= List.length (App.monthly d))%nat /\
      (1 <= List.length (App.weekly_chart d) <= 12)%nat /\
      (tf = App.All_time ->
         App.total d = App.sum_amount df /\ App.records d = List.length df) /\
      (tf = App.Last_30_days -> App.total d = App.last_30_days d).
Proof.
  intros tf dr r0 rest df Htf Hrange.
  pose proof (date_max_spec r0 rest) as (Hmaxin & Hmax).
  pose proof (date_min_spec r0 rest) as (Hminin & Hmin).
  fold df in Hmaxin, Hmax, Hminin, Hmin.
  set (hi := App.date_max r0 rest) in *. set (lo0 := App.date_min r0 rest) in *.
  assert (HM : exists rM, In rM df /\ Frame.date rM = hi).
  { apply in_map_iff in Hmaxin. destruct Hmaxin as (rM & EM & HrM). eauto. }
  destruct HM as (rM & HrM & EM).
  assert (Hm : exists rm, In rm df /\ Frame.date rm = lo0).
  { apply in_map_iff in Hminin. destruct Hminin as (rm & Em & Hrm). eauto. }
  destruct Hm as (rm & Hrm & Em).
  pose proof (Hrange rM HrM) as RM. rewrite EM in RM.
  assert (E : exists lo, App.resolve_timeframe tf dr r0 rest = Ok (lo, hi) /\ lo <= hi /\
                         (tf = App.All_time -> lo = lo0) /\
                         (tf = App.Last_30_days -> lo = hi - 30)).
  { destruct tf; try congruence; eexists; (split; [reflexivity|]).
    - split; [lia|]. split; [discriminate|reflexivity].
    - split; [lia|]. split; discriminate.
    - split; [apply (year_start_spec hi RM)|]. split; discriminate.
    - split; [pose proof (Hmax rm Hrm) as Q1; rewrite Em in Q1; exact Q1|].
      split; [reflexivity|discriminate]. }
  destruct E as (lo & E & Hle & Hall & H30).
  unfold App.render_dashboard. rewrite E. cbn [bind].
  eexists. split; [reflexivity|].
  cbn [App.start App.end_ App.total App.last_30_days App.records App.monthly
       App.weekly_chart].
  fold df.
  assert (Hin : In rM (App.between lo hi df)).
  { unfold App.between. apply filter_In. split; [exact HrM|].
    apply andb_true_iff. rewrite !Z.leb_le. lia. }
  destruct (App.between lo hi df) as [|x xs] eqn:Eb; [destruct Hin|].
  assert (Hsub : forall r, In r (x :: xs) -> 1 <= Frame.date r <= Calendar.max_ordinal).
  { intros r Hr. apply Hrange. rewrite <- Eb in Hr. unfold App.between in Hr.
    apply filter_In in Hr. tauto. }
  split; [exact Hle|]. split; [cbn; lia|].
  split; [now apply resample_M_length|].
  split.
  { destruct (tail_spec 12 (App.resample_W_MON (x :: xs))) as (L & _).
    pose proof (resample_W_MON_length x xs). rewrite L. lia. }
  split.
  - intros Ha. rewrite <- Eb. rewrite (Hall Ha). unfold App.between.
    rewrite filter_all; [auto|].
    intros r Hr. apply andb_true_iff. rewrite !Z.leb_le.
    split; [now apply Hmin|now apply Hmax].
  - intros H. rewrite <- Eb, (H30 H). reflexivity.
Qed.

Lemma named_timeframe_dashboard_witness :
  exists d,
    App.render_dashboard App.Year_to_date [] Sample.rent [Sample.lunch] = Ok d /\
    (1 <= App.records d)%nat.
Proof.
  destruct (named_timeframe_dashboard App.Year_to_date [] Sample.rent [Sample.lunch])
    as (d & E & _ & H & _).
  - discriminate.
  - intros r [<-|[<-|[]]]; vm_compute; split; discriminate.
  - exists d. auto.
Defined.

(** ** The breakdown by category *)










Lemma cat_df_example :
  map fst (Breakdown.cat_df [Sample.rent; Sample.lunch; Sample.no_notes])
    = ["Housing"; "Food"]%string.
Proof. reflexivity. Qed.

(** ** Sessions *)

(** X15. Whatever pages are run from a new file, with [date] objects
    from the date widget and demo draws that stay in the calendar, every
    stored date is a canonical text, no stored note is a missing value,
    and [fetch_expenses] after [init_db] returns a frame with as many
    rows as the table. *)
Theorem sessions_keep_the_store_readable :
  forall (runs : list App.inputs),
    Forall App.inputs_ok runs ->
    let db := App.store (App.session runs Sample.empty_world) in
    Forall (fun r => Calendar.is_iso (Table.date r) = true) (Db.rows_of db) /\
    Forall (fun r => Table.notes r <> None) (Db.rows_of db) /\
    exists df, Db.fetch_expenses (Db.init_db db) = Ok df /\
               List.length df = List.length (Db.rows_of db).
Proof.
  intros runs Hok db.
  assert (Hnotes : forall (rs : list App.inputs) (w : App.world),
            Forall (fun r => Table.notes r <> None) (Db.rows_of (App.store w)) ->
            Forall (fun r => Table.notes r <> None)
                   (Db.rows_of (App.store (App.session rs w)))).
  { clear. induction rs as [|i rs IH]; intros w Hw; cbn [App.session]; [exact Hw|].
    apply IH. clear IH.
    unfold App.app, App.mbind, App.db_init_db, App.db_fetch_expenses, App.log.
    step_world.
    assert (Hi : Forall (fun r => Table.notes r <> None)
                        (Db.rows_of (Db.init_db (App.store w))))
      by now rewrite init_db_rows.
    destruct (Db.fetch_expenses (Db.init_db (App.store w))) as [df|e];
      step_world; [|exact Hi].
    destruct (App.page i).
    - destruct df as [|r0 rest]; step_world; [exact Hi|].
      unfold App.lift, App.emit.
      destruct (App.render_dashboard _ _ _ _); step_world; exact Hi.
    - destruct (App.submitted i); [|exact Hi].
      unfold App.add_expense_submit.
      destruct (Qle_bool (App.amount i) 0); step_world; [exact Hi|].
      unfold App.db_add_expense, App.mbind, App.log. step_world.
      destruct (Db.add_expense _ _ _ _ _ (Db.init_db (App.store w))) as [db'|e] eqn:E;
        step_world; [|exact Hi].
      destruct (add_expense_rows _ _ _ _ _ _ _ E) as (r & R & _ & _ & Hn & _).
      assert (Forall (fun r => Table.notes r <> None) (Db.rows_of db')).
      { rewrite R. apply Forall_app. split; [exact Hi|].
        constructor; [rewrite Hn; discriminate|constructor]. }
      destruct (Db.fetch_expenses db'); step_world; assumption.
    - destruct df as [|r0 rest]; step_world; [exact Hi|].
      unfold App.lift, App.emit.
      destruct (App.view_filtered _ _ _ _); step_world; exact Hi.
    - destruct (App.demo_button i); step_world; [|exact Hi].
      unfold App.db_add_demo_data, App.mbind, App.log. step_world.
      unfold Db.add_demo_data.
      assert (E0 : exists t0, Db.init_db (Db.init_db (App.store w)) = Some t0 /\
                              Db.rows t0 = Db.rows_of (Db.init_db (App.store w))).
      { destruct (App.store w) as [t|]; eexists; split; reflexivity. }
      destruct E0 as (t0 & E0 & R0). rewrite E0.
      destruct (demo_loop_rows_detail (App.today i) (firstn 60 (App.draws i)) t0)
        as (t' & added & E & R & F).
      rewrite E. step_world. rewrite R, R0. apply Forall_app. split; [exact Hi|].
      clear - F. induction F as [|w0 r l1 l2 H F IH]; constructor; [|exact IH].
      destruct H as (_ & _ & _ & Hn & _). rewrite Hn. discriminate. }
  pose proof (session_populated runs Sample.empty_world Hok (or_introl eq_refl)) as Hp.
  fold db in Hp.
  pose proof (populated_init_db db Hp) as Hp'.
  pose proof (populated_rows_iso _ Hp') as Hiso. rewrite init_db_rows in Hiso.
  split; [exact Hiso|]. split; [apply Hnotes; constructor|].
  pose proof (populated_not_none _ Hp') as Hnn.
  destruct (Db.init_db db) as [t|] eqn:E0; [|congruence].
  assert (Rt : Db.rows t = Db.rows_of db).
  { rewrite <- (init_db_rows db), E0. reflexivity. }
  rewrite <- Rt in Hiso.
  destruct (fetch_expenses_rows t Hiso) as (df & sorted & E & Hperm & F).
  exists df. split; [exact E|].
  rewrite <- (Forall2_length F), <- (Permutation_length Hperm), Rt. reflexivity.
Qed.

Lemma sessions_keep_the_store_readable_witness :
  exists df,
    Db.fetch_expenses
      (Db.init_db
         (App.store
            (App.session
               [App.mkInputs App.Add_Expense 50 Sample.jan_15 "Food" "" true
                  [] [] "" App.Last_30_days [] false
                  "2024-01-15 12:00:00" 738900 []]
               Sample.empty_world))) = Ok df.
Proof.
  destruct (sessions_keep_the_store_readable
              [App.mkInputs App.Add_Expense 50 Sample.jan_15 "Food" "" true
                 [] [] "" App.Last_30_days [] false
                 "2024-01-15 12:00:00" 738900 []])
    as (_ & _ & df & E & _).
  - constructor; [|constructor]. split; [reflexivity|constructor].
  - exists df. exact E.
Defined.
